(** * Referee link of the robot: game-controller packets and local game state

    A shallow embedding of [RefereeGameController] (src/fumanoid.cpp):
    [getGCRobotID], [handleRefereeMessage] and one iteration of the
    [threadMain] receive loop, together with the acceptance test of
    [GameCtrl::receive] (src/unnamed/part_000).

    Integers are mathematical integers ([Z]).  The widths of the fields of
    the local state are fixed by referee.h, which is not part of the
    sources at hand; the model therefore stores the values the packet
    carries without narrowing, and [counter++] is [+ 1].  Log output is
    not modelled; the exits of the handler and the branches of the loop
    that differ in what they log are told apart by an outcome value. *)

From Stdlib Require Import ZArith List Bool Lia.
From Stdlib Require String.
Import ListNotations.
Local Open Scope Z_scope.

(** ** Constants of RoboCupGameControlData.h

    The header that defines the wire structs and their constants is not
    among the sources; the constants the code mentions are collected in a
    class and every definition below is parametric in it. *)

Class GameControlHeader : Type := {
  STRUCT_HEADER : list Z;            (* the 4 characters of the magic tag *)
  STRUCT_VERSION : Z;
  STRUCT_SIZE : Z;                   (* sizeof(RoboCupGameControlData) *)
  MAX_NUM_PLAYERS : Z;
  TEAM_MAGENTA : Z;
  STATE_INITIAL : Z;
  STATE_READY : Z;
  STATE_SET : Z;
  STATE_PLAYING : Z;
  STATE_FINISHED : Z;
  STATE2_NORMAL : Z;
  STATE2_PENALTYSHOOT : Z;
  GAMECONTROLLER_RETURN_STRUCT_HEADER : list Z;
  GAMECONTROLLER_RETURN_STRUCT_VERSION : Z;
  GAMECONTROLLER_RETURN_MSG_ALIVE : Z
}.

(** What the code relies on without saying so.  The codes of the game
    states are pairwise different, and so are the two codes of the
    secondary state. *)
Record codes_distinct `{GameControlHeader} : Prop := {
  states_distinct :
    NoDup [STATE_INITIAL; STATE_READY; STATE_SET; STATE_PLAYING; STATE_FINISHED];
  secondary_distinct : STATE2_NORMAL <> STATE2_PENALTYSHOOT
}.

(** The magic tag is four characters, none of which is NUL. *)
Record tag_ok `{GameControlHeader} : Prop := {
  header_length : length STRUCT_HEADER = 4%nat;
  header_chars : Forall (fun ch => 0 < ch < 256) STRUCT_HEADER
}.

(** ** The wire struct, seen through the struct pointer *)

Record RobotInfo : Type := {
  penalty : Z;
  secsTillUnpenalised : Z
}.

Record TeamInfo : Type := {
  teamNumber : Z;
  teamColour : Z;
  score : Z;
  players : list RobotInfo           (* RobotInfo players[MAX_NUM_PLAYERS] *)
}.

Module Data.
Record RoboCupGameControlData : Type := {
  version : Z;
  state : Z;
  secGameState : Z;
  kickOffTeam : Z;
  teams_0 : TeamInfo;
  teams_1 : TeamInfo
}.

(** [data->teams[i]] for the two slots of the array. *)
Definition teams (data : RoboCupGameControlData) (i : Z) : TeamInfo :=
  if i =? 0 then teams_0 data else teams_1 data.
End Data.
Export Data (RoboCupGameControlData).

Definition no_player : RobotInfo := {| penalty := 0; secsTillUnpenalised := 0 |}.

(** [team.players[i]]; the index is within the array wherever the code
    reads it (see [getGCRobotID_range]). *)
Definition player (team : TeamInfo) (i : Z) : RobotInfo :=
  nth (Z.to_nat i) (players team) no_player.

(** ** The local state (referee.h) *)

(** Modelled from the spec: the enumerations of referee.h, which is not
    among the sources; the constructors are the enumerators the code
    names, the sets are those of the data model (team color Magenta or
    Cyan, phase Stopped, Ready, Set or Started, kickoff mode Regular or
    DropBall, kickoff side Self, Opponent or Either). *)
Inductive Color : Set := Magenta | Cyan.
Inductive GameState : Set := GAME_STOPPED | GAME_READY | GAME_SET | GAME_STARTED.
Inductive KickOffMode : Set := KICKOFF_REGULAR | KICKOFF_DROPBALL.
Inductive KickOffSide : Set := KICKOFFSIDE_ME | KICKOFFSIDE_OPPONENT | KICKOFFSIDE_ANY.

Definition Color_eqb (a b : Color) : bool :=
  match a, b with Magenta, Magenta | Cyan, Cyan => true | _, _ => false end.

Definition GameState_eqb (a b : GameState) : bool :=
  match a, b with
  | GAME_STOPPED, GAME_STOPPED | GAME_READY, GAME_READY
  | GAME_SET, GAME_SET | GAME_STARTED, GAME_STARTED => true
  | _, _ => false
  end.

Definition KickOffMode_eqb (a b : KickOffMode) : bool :=
  match a, b with
  | KICKOFF_REGULAR, KICKOFF_REGULAR | KICKOFF_DROPBALL, KICKOFF_DROPBALL => true
  | _, _ => false
  end.

Definition KickOffSide_eqb (a b : KickOffSide) : bool :=
  match a, b with
  | KICKOFFSIDE_ME, KICKOFFSIDE_ME | KICKOFFSIDE_OPPONENT, KICKOFFSIDE_OPPONENT
  | KICKOFFSIDE_ANY, KICKOFFSIDE_ANY => true
  | _, _ => false
  end.

(** The member [state] of the controller. *)
Record RefereeState : Type := mkState {
  teamID : Z;
  teamColor : Color;
  opponentID : Z;
  teamScore : Z;
  opponentScore : Z;
  gameState : GameState;
  isPenaltyShoot : bool;
  kickOffMode : KickOffMode;
  kickOffSide : KickOffSide;
  isPenalized : bool;
  remainingPenalizedTime : Z;
  counter : Z
}.

(** The members of [RefereeGameController] that the message handler reads
    or writes. *)
Record RefereeGameController : Type := mkController {
  state : RefereeState;
  refereeEnabled : bool;
  GCinitialized : bool;
  gcPort : Z
}.

(** *** Assignments to single members *)

Definition set_teamColor (v : Color) (s : RefereeState) : RefereeState :=
  mkState (teamID s) v (opponentID s) (teamScore s) (opponentScore s)
    (gameState s) (isPenaltyShoot s) (kickOffMode s) (kickOffSide s)
    (isPenalized s) (remainingPenalizedTime s) (counter s).

Definition set_opponentID (v : Z) (s : RefereeState) : RefereeState :=
  mkState (teamID s) (teamColor s) v (teamScore s) (opponentScore s)
    (gameState s) (isPenaltyShoot s) (kickOffMode s) (kickOffSide s)
    (isPenalized s) (remainingPenalizedTime s) (counter s).

Definition set_teamScore (v : Z) (s : RefereeState) : RefereeState :=
  mkState (teamID s) (teamColor s) (opponentID s) v (opponentScore s)
    (gameState s) (isPenaltyShoot s) (kickOffMode s) (kickOffSide s)
    (isPenalized s) (remainingPenalizedTime s) (counter s).

Definition set_opponentScore (v : Z) (s : RefereeState) : RefereeState :=
  mkState (teamID s) (teamColor s) (opponentID s) (teamScore s) v
    (gameState s) (isPenaltyShoot s) (kickOffMode s) (kickOffSide s)
    (isPenalized s) (remainingPenalizedTime s) (counter s).

Definition set_gameState (v : GameState) (s : RefereeState) : RefereeState :=
  mkState (teamID s) (teamColor s) (opponentID s) (teamScore s) (opponentScore s)
    v (isPenaltyShoot s) (kickOffMode s) (kickOffSide s)
    (isPenalized s) (remainingPenalizedTime s) (counter s).

Definition set_isPenaltyShoot (v : bool) (s : RefereeState) : RefereeState :=
  mkState (teamID s) (teamColor s) (opponentID s) (teamScore s) (opponentScore s)
    (gameState s) v (kickOffMode s) (kickOffSide s)
    (isPenalized s) (remainingPenalizedTime s) (counter s).

Definition set_kickOff (m : KickOffMode) (k : KickOffSide) (s : RefereeState)
  : RefereeState :=
  mkState (teamID s) (teamColor s) (opponentID s) (teamScore s) (opponentScore s)
    (gameState s) (isPenaltyShoot s) m k
    (isPenalized s) (remainingPenalizedTime s) (counter s).

Definition set_isPenalized (v : bool) (s : RefereeState) : RefereeState :=
  mkState (teamID s) (teamColor s) (opponentID s) (teamScore s) (opponentScore s)
    (gameState s) (isPenaltyShoot s) (kickOffMode s) (kickOffSide s)
    v (remainingPenalizedTime s) (counter s).

Definition set_remainingPenalizedTime (v : Z) (s : RefereeState) : RefereeState :=
  mkState (teamID s) (teamColor s) (opponentID s) (teamScore s) (opponentScore s)
    (gameState s) (isPenaltyShoot s) (kickOffMode s) (kickOffSide s)
    (isPenalized s) v (counter s).

Definition set_counter (v : Z) (s : RefereeState) : RefereeState :=
  mkState (teamID s) (teamColor s) (opponentID s) (teamScore s) (opponentScore s)
    (gameState s) (isPenaltyShoot s) (kickOffMode s) (kickOffSide s)
    (isPenalized s) (remainingPenalizedTime s) v.

(** ** RefereeGameController::getGCRobotID and ::handleRefereeMessage *)

(** Which exit of [handleRefereeMessage] was taken.  The function returns
    [void]; [IgnoredVersionMismatch] is the exit that logs the version
    error, the other two [Ignored] exits are the silent [return]s and
    [Applied] is the fall-through to the end of the body. *)
Inductive ReconcileOutcome : Set :=
  | Applied
  | IgnoredNotAddressed
  | IgnoredVersionMismatch
  | IgnoredDisabled.

(** Conversion to [int16_t], the type of the parameter of
    [getGCRobotID]: the values from -32768 to 32767 are kept, every other
    value wraps around. *)
Definition int16_t (v : Z) : Z := (v + 32768) mod 65536 - 32768.

Section Handler.
Context `{GameControlHeader}.

(** Robots 1..MAX_NUM_PLAYERS are mapped to 0..MAX_NUM_PLAYERS-1, every
    other robot to -1.  [robotID] is the [int16_t] argument. *)
Definition getGCRobotID (robotID : Z) : Z :=
  if (0 <? robotID) && (robotID <=? MAX_NUM_PLAYERS) then robotID - 1
  else -1.

(** "check whether we are an intended recipient": [None] is the
    [return] of the final [else]. *)
Definition intended_recipient (s : RefereeState) (data : RoboCupGameControlData)
  : option Z :=
  if teamNumber (Data.teams data 0) =? teamID s then Some 0
  else if teamNumber (Data.teams data 1) =? teamID s then Some 1
  else None.

(** "adjust our score" *)
Definition adjust_teamScore (teamIndex : Z) (data : RoboCupGameControlData)
    (s : RefereeState) : RefereeState :=
  if negb (score (Data.teams data teamIndex) =? teamScore s)
  then set_teamScore (score (Data.teams data teamIndex)) s
  else s.

(** "adjust opponent score" *)
Definition adjust_opponentScore (teamIndex : Z) (data : RoboCupGameControlData)
    (s : RefereeState) : RefereeState :=
  if negb (score (Data.teams data (1 - teamIndex)) =? opponentScore s)
  then set_opponentScore (score (Data.teams data (1 - teamIndex))) s
  else s.

(** "handle drop ball, alternative implementation" *)
Definition handle_dropball (data : RoboCupGameControlData) (s : RefereeState)
  : RefereeState :=
  if (Data.kickOffTeam data =? 2)
     && negb (KickOffMode_eqb (kickOffMode s) KICKOFF_DROPBALL)
  then set_kickOff KICKOFF_DROPBALL KICKOFFSIDE_ANY s
  else s.

(** The condition of "adjust kick off if our settings mismatch those of
    the referee". *)
Definition kickoff_mismatch (teamIndex : Z) (data : RoboCupGameControlData)
    (s : RefereeState) : bool :=
  ((Data.kickOffTeam data =? teamIndex)
     && negb (KickOffSide_eqb (kickOffSide s) KICKOFFSIDE_ME))
  || ((Data.kickOffTeam data =? 1 - teamIndex)
        && negb (KickOffSide_eqb (kickOffSide s) KICKOFFSIDE_OPPONENT)).

Definition adjust_kickoff (teamIndex : Z) (data : RoboCupGameControlData)
    (s : RefereeState) : RefereeState :=
  if kickoff_mismatch teamIndex data s
  then set_kickOff KICKOFF_REGULAR
         (if Data.kickOffTeam data =? teamIndex
          then KICKOFFSIDE_ME else KICKOFFSIDE_OPPONENT) s
  else s.

(** "adjust team color" *)
Definition packet_color (teamIndex : Z) (data : RoboCupGameControlData) : Color :=
  if teamColour (Data.teams data teamIndex) =? TEAM_MAGENTA then Magenta else Cyan.

Definition adjust_teamColor (teamIndex : Z) (data : RoboCupGameControlData)
    (s : RefereeState) : RefereeState :=
  if negb (Color_eqb (packet_color teamIndex data) (teamColor s))
  then set_teamColor (packet_color teamIndex data) s
  else s.

(** "adjust game state": the chain of [else if]s, in the order of the
    source. *)
Definition adjust_gameState (data : RoboCupGameControlData) (s : RefereeState)
  : RefereeState :=
  if (Data.state data =? STATE_INITIAL)
     && negb (GameState_eqb (gameState s) GAME_STOPPED)
  then set_gameState GAME_STOPPED s
  else if (Data.state data =? STATE_READY)
          && negb (GameState_eqb (gameState s) GAME_READY)
  then set_gameState GAME_READY s
  else if (Data.state data =? STATE_SET)
          && negb (GameState_eqb (gameState s) GAME_SET)
  then set_gameState GAME_SET s
  else if (Data.state data =? STATE_PLAYING)
          && negb (GameState_eqb (gameState s) GAME_STARTED)
  then set_gameState GAME_STARTED s
  else if (Data.state data =? STATE_FINISHED)
          && negb (GameState_eqb (gameState s) GAME_STOPPED)
  then set_gameState GAME_STOPPED s
  else s.

(** "penalty shootout?" *)
Definition adjust_penaltyShoot (data : RoboCupGameControlData) (s : RefereeState)
  : RefereeState :=
  if (Data.secGameState data =? STATE2_NORMAL) && isPenaltyShoot s
  then set_isPenaltyShoot false s
  else if (Data.secGameState data =? STATE2_PENALTYSHOOT)
          && negb (isPenaltyShoot s)
  then set_isPenaltyShoot true s
  else s.

(** "handle penalties"; [robotID] is the argument [getGCRobotID]
    receives, which is what [robot.getID()] returns once converted to
    [int16_t]. *)
Definition handle_penalties (robotID teamIndex : Z) (data : RoboCupGameControlData)
    (s : RefereeState) : RefereeState :=
  let gcRobotID := getGCRobotID robotID in
  if negb (gcRobotID =? -1) then
    let s :=
      set_remainingPenalizedTime
        (secsTillUnpenalised (player (Data.teams data teamIndex) gcRobotID)) s in
    if 0 <? remainingPenalizedTime s
    then set_isPenalized true s
    else set_remainingPenalizedTime 0 (set_isPenalized false s)
  else s.

(** The body of the handler below the addressing test, statement by
    statement. *)
Definition apply_packet (robotID teamIndex : Z) (data : RoboCupGameControlData)
    (s : RefereeState) : RefereeState :=
  let s := set_counter (counter s + 1) s in
  let s := set_opponentID (teamNumber (Data.teams data (1 - teamIndex))) s in
  let s := adjust_teamScore teamIndex data s in
  let s := adjust_opponentScore teamIndex data s in
  let s := handle_dropball data s in
  let s := adjust_kickoff teamIndex data s in
  let s := adjust_teamColor teamIndex data s in
  let s := adjust_gameState data s in
  let s := adjust_penaltyShoot data s in
  handle_penalties robotID teamIndex data s.

(** [robotID] is the robot identifier as [getGCRobotID] receives it: for
    a robot whose [robot.getID()] returns [id] it is [int16_t id], which
    is [id] itself for every identifier of 16 bits. *)
Definition handleRefereeMessage (robotID : Z) (this : RefereeGameController)
    (data : RoboCupGameControlData) : RefereeGameController * ReconcileOutcome :=
  if negb (Data.version data =? STRUCT_VERSION) then
    (mkController (state this) false (GCinitialized this) (gcPort this),
     IgnoredVersionMismatch)
  else if negb (refereeEnabled this) then (this, IgnoredDisabled)
  else
    match intended_recipient (state this) data with
    | None => (this, IgnoredNotAddressed)
    | Some teamIndex =>
        (mkController (apply_packet robotID teamIndex data (state this))
           (refereeEnabled this) true (gcPort this),
         Applied)
    end.

(** The controller after a sequence of packets, handled one after the
    other as the receive loop does. *)
Definition handle_all (robotID : Z) (this : RefereeGameController)
    (packets : list RoboCupGameControlData) : RefereeGameController :=
  fold_left (fun c data => fst (handleRefereeMessage robotID c data)) packets this.

End Handler.

(** ** One iteration of RefereeGameController::threadMain *)

Definition BUFFSIZE : Z := 1500.

(** [strncmp(s1, s2, n)] on characters given as their [unsigned char]
    values; reading past the end of a list reads the terminating NUL. *)
Fixpoint strncmp (s1 s2 : list Z) (n : nat) : Z :=
  match n with
  | O => 0
  | S n' =>
      let c1 := hd 0 s1 in
      let c2 := hd 0 s2 in
      if c1 =? c2
      then (if c1 =? 0 then 0 else strncmp (tl s1) (tl s2) n')
      else c1 - c2
  end.

(** [strncpy(dest, src, n)]: the [n] characters written to [dest]. *)
Fixpoint strncpy (src : list Z) (n : nat) : list Z :=
  match n with
  | O => []
  | S n' =>
      match src with
      | [] => 0 :: strncpy [] n'
      | ch :: rest => if ch =? 0 then 0 :: strncpy [] n' else ch :: strncpy rest n'
      end
  end.

(** [uint8_t buffer[BUFFSIZE]] after [transport->read]: [bytes] is the
    content of the array (the received bytes followed by whatever the
    array held), [data] is what the array holds when it is read through
    the pointer cast to the struct type. *)
Record Buffer : Type := {
  bytes : list Z;
  data : RoboCupGameControlData
}.

Record sockaddr_in : Type := {
  sin_addr : Z;
  sin_port : Z                       (* kept in host order; htons is left out *)
}.

Module ReturnData.
Record RoboCupGameControlReturnData : Type := {
  header : list Z;
  version : Z;
  team : Z;
  player : Z;
  message : Z
}.
End ReturnData.
Export ReturnData (RoboCupGameControlReturnData).

(** One call of [transport->write]. *)
Record Write : Type := {
  status : RoboCupGameControlReturnData;
  destination : sockaddr_in
}.

(** What the transport delivers in one iteration: [waitForData] timed
    out, or [read] returned [received] with the buffer and the sender. *)
Inductive Delivery : Type :=
  | NoData
  | Datagram (received : Z) (buffer : Buffer) (remoteAddress : sockaddr_in).

(** How an iteration ended.  [SizeMismatch] is the branch that logs the
    size error, [BadHeader] the empty [else] of the header test (its
    report is commented out), [ReceiveError] the branch of
    [received <= 0]. *)
Inductive IterationOutcome : Set :=
  | Idle
  | ReceiveError
  | BadHeader
  | SizeMismatch
  | Handled (outcome : ReconcileOutcome).

Section Listener.
Context `{GameControlHeader}.

Definition alive_status (this : RefereeGameController) (robotID : Z)
  : RoboCupGameControlReturnData :=
  {| ReturnData.header := strncpy GAMECONTROLLER_RETURN_STRUCT_HEADER 4;
     ReturnData.version := GAMECONTROLLER_RETURN_STRUCT_VERSION;
     ReturnData.team := teamID (state this);
     ReturnData.player := robotID;
     ReturnData.message := GAMECONTROLLER_RETURN_MSG_ALIVE |}.

(** The body of the [while] loop: the controller afterwards, the writes
    to the transport and the branch taken. *)
Definition threadMain_iteration (robotID : Z) (this : RefereeGameController)
    (input : Delivery) : RefereeGameController * list Write * IterationOutcome :=
  match input with
  | NoData => (this, [], Idle)
  | Datagram received buffer remoteAddress =>
      if received <=? 0 then (this, [], ReceiveError)
      else if strncmp (bytes buffer) STRUCT_HEADER 4 =? 0 then
        if negb (received =? STRUCT_SIZE) then (this, [], SizeMismatch)
        else
          let '(this', outcome) := handleRefereeMessage robotID this (data buffer) in
          (this',
           [ {| status := alive_status this' robotID;
                destination := {| sin_addr := sin_addr remoteAddress;
                                  sin_port := gcPort this' |} |} ],
           Handled outcome)
      else (this, [], BadHeader)
  end.

End Listener.

(** ** GameCtrl::receive (src/unnamed/part_000) *)

Section GameCtrl.
Context `{GameControlHeader}.

(** [!std::memcmp(&buffer, GAMECONTROLLER_STRUCT_HEADER, 4)] *)
Definition memcmp4_eq (b tag : list Z) : bool :=
  if list_eq_dec Z.eq_dec (firstn 4 b) (firstn 4 tag) then true else false.

(** The condition under which a datagram of [size] bytes replaces the
    local copy of the packet.  The file names the tag and the version
    GAMECONTROLLER_STRUCT_HEADER and GAMECONTROLLER_STRUCT_VERSION;
    [ownTeam] is the member [teamNumber]. *)
Definition accepted (ownTeam size : Z) (buffer : Buffer) : bool :=
  (size =? STRUCT_SIZE)
  && memcmp4_eq (bytes buffer) STRUCT_HEADER
  && (Data.version (data buffer) =? STRUCT_VERSION)
  && negb (ownTeam =? 0)
  && ((teamNumber (Data.teams (data buffer) 0) =? ownTeam)
      || (teamNumber (Data.teams (data buffer) 1) =? ownTeam)).

(** The same condition with the constants of the header of
    [GameCtrl] kept apart from those of the referee controller: [tag] is
    GAMECONTROLLER_STRUCT_HEADER, [version] is
    GAMECONTROLLER_STRUCT_VERSION, [size] is the size of its struct and
    [view] is the buffer read through its struct type. *)
Definition accepted_by (tag : list Z) (version size : Z)
    (view : Buffer -> RoboCupGameControlData) (ownTeam received : Z)
    (buffer : Buffer) : bool :=
  (received =? size)
  && memcmp4_eq (bytes buffer) tag
  && (Data.version (view buffer) =? version)
  && negb (ownTeam =? 0)
  && ((teamNumber (Data.teams (view buffer) 0) =? ownTeam)
      || (teamNumber (Data.teams (view buffer) 1) =? ownTeam)).

(** The [while] loop of [receive]: [reads] are the results of the
    successive [udp->read] calls, the size returned and the buffer read;
    the loop ends with the first size that is not positive. *)
Fixpoint receive (ownTeam : Z) (gameCtrlData : RoboCupGameControlData)
    (received : bool) (reads : list (Z * Buffer))
  : RoboCupGameControlData * bool :=
  match reads with
  | [] => (gameCtrlData, received)
  | (size, buffer) :: rest =>
      if 0 <? size then
        if accepted ownTeam size buffer
        then receive ownTeam (data buffer) true rest
        else receive ownTeam gameCtrlData received rest
      else (gameCtrlData, received)
  end.

End GameCtrl.

(** ** Predicates used in the statements *)

Section Predicates.
Context `{GameControlHeader}.

(** One of the two team records carries the local team number. *)
Definition addressed (s : RefereeState) (data : RoboCupGameControlData) : Prop :=
  teamNumber (Data.teams data 0) = teamID s
  \/ teamNumber (Data.teams data 1) = teamID s.

(** Drop-ball mode leaves the kick off to either side. *)
Definition kickoff_consistent (s : RefereeState) : Prop :=
  kickOffMode s = KICKOFF_DROPBALL -> kickOffSide s = KICKOFFSIDE_ANY.

(** The first four bytes of the receive buffer are the magic tag. *)
Definition has_magic (buffer : Buffer) : Prop :=
  firstn 4 (bytes buffer) = STRUCT_HEADER.

End Predicates.

(** ** Concrete data, for evaluating the definitions *)

(** An instantiation of the header constants (tag "RGme", eleven players
    per team, the state codes numbered in the order the handler tests
    them). *)
Definition example_header : GameControlHeader := {|
  STRUCT_HEADER := [82; 71; 109; 101];
  STRUCT_VERSION := 7;
  STRUCT_SIZE := 116;
  MAX_NUM_PLAYERS := 11;
  TEAM_MAGENTA := 1;
  STATE_INITIAL := 0;
  STATE_READY := 1;
  STATE_SET := 2;
  STATE_PLAYING := 3;
  STATE_FINISHED := 4;
  STATE2_NORMAL := 0;
  STATE2_PENALTYSHOOT := 1;
  GAMECONTROLLER_RETURN_STRUCT_HEADER := [82; 71; 114; 116];
  GAMECONTROLLER_RETURN_STRUCT_VERSION := 1;
  GAMECONTROLLER_RETURN_MSG_ALIVE := 0
|}.

(** Team 2 in magenta with one goal; its second player sits out [secs]
    seconds. *)
Definition example_team (secs : Z) : TeamInfo := {|
  teamNumber := 2;
  teamColour := 1;
  score := 1;
  players := no_player :: {| penalty := 1; secsTillUnpenalised := secs |}
             :: repeat no_player 9
|}.

Definition example_opponent : TeamInfo := {|
  teamNumber := 5;
  teamColour := 0;
  score := 0;
  players := repeat no_player 11
|}.

(** A packet of version [v] with the game in play and kick off for
    [kickOff]. *)
Definition example_packet (v kickOff secs : Z) : RoboCupGameControlData := {|
  Data.version := v;
  Data.state := 3;
  Data.secGameState := 0;
  Data.kickOffTeam := kickOff;
  Data.teams_0 := example_team secs;
  Data.teams_1 := example_opponent
|}.

(** A packet of a match between two other teams. *)
Definition foreign_packet : RoboCupGameControlData := {|
  Data.version := 7;
  Data.state := 3;
  Data.secGameState := 0;
  Data.kickOffTeam := 0;
  Data.teams_0 := example_opponent;
  Data.teams_1 := example_opponent
|}.

(** A controller of team 2 with the kick-off members set to [m] and [k]. *)
Definition example_controller (m : KickOffMode) (k : KickOffSide)
  : RefereeGameController := {|
  state := mkState 2 Cyan 0 0 0 GAME_STOPPED false m k false 0 0;
  refereeEnabled := true;
  GCinitialized := false;
  gcPort := 3838
|}.

(** A receive buffer that starts with [tag] and holds [data]. *)
Definition example_buffer (tag : list Z) (data : RoboCupGameControlData) : Buffer := {|
  bytes := tag ++ repeat 0 (Z.to_nat BUFFSIZE - length tag);
  data := data
|}.

Definition example_sender : sockaddr_in := {| sin_addr := 3232235777; sin_port := 40000 |}.

(** ** Runs of the handler and of the receive loop *)

Section Runs.
Context `{GameControlHeader}.

(** How many packets of a run leave the handler through the
    fall-through exit. *)
Fixpoint applied_count (robotID : Z) (this : RefereeGameController)
    (packets : list RoboCupGameControlData) : Z :=
  match packets with
  | [] => 0
  | data :: rest =>
      let '(this', outcome) := handleRefereeMessage robotID this data in
      (match outcome with Applied => 1 | _ => 0 end)
      + applied_count robotID this' rest
  end.

(** One of the two team records carries the number [team]. *)
Definition names_team (team : Z) (data : RoboCupGameControlData) : bool :=
  (teamNumber (Data.teams data 0) =? team)
  || (teamNumber (Data.teams data 1) =? team).

(** The packet is of another version or names [team]. *)
Definition concerns (team : Z) (data : RoboCupGameControlData) : bool :=
  negb (Data.version data =? STRUCT_VERSION) || names_team team data.

(** The three tests a delivery has to pass for the loop to hand it to
    the handler. *)
Definition reaches_handler (input : Delivery) : bool :=
  match input with
  | NoData => false
  | Datagram received buffer _ =>
      negb (received <=? 0)
      && (strncmp (bytes buffer) STRUCT_HEADER 4 =? 0)
      && (received =? STRUCT_SIZE)
  end.

Definition sender (input : Delivery) : sockaddr_in :=
  match input with
  | NoData => {| sin_addr := 0; sin_port := 0 |}
  | Datagram _ _ remoteAddress => remoteAddress
  end.

Definition packet_of (input : Delivery) : list RoboCupGameControlData :=
  match input with
  | NoData => []
  | Datagram _ buffer _ => [data buffer]
  end.

(** The return packet the loop writes for a delivery it hands to the
    handler, as seen from the controller [this]. *)
Definition acknowledgement (robotID : Z) (this : RefereeGameController)
    (input : Delivery) : Write :=
  {| status := alive_status this robotID;
     destination := {| sin_addr := sin_addr (sender input);
                       sin_port := gcPort this |} |}.

(** The [while] loop of [threadMain] over the deliveries of a run: the
    controller at the end and the writes in the order they were made. *)
Fixpoint threadMain_run (robotID : Z) (this : RefereeGameController)
    (inputs : list Delivery) : RefereeGameController * list Write :=
  match inputs with
  | [] => (this, [])
  | input :: rest =>
      let '(this', writes, _) := threadMain_iteration robotID this input in
      let '(final, later) := threadMain_run robotID this' rest in
      (final, writes ++ later)
  end.

End Runs.

(** ** RefereeGameController::init and ::messageCallback *)

Import String.StringSyntax.

(** What the configuration returns for the four registered parameters. *)
Record Config : Type := {
  game_team_id : Z;
  game_team_color : String.string;
  referee_enabled : Z;
  referee_port : Z
}.

(** The controller together with its transport ([Some port] once the
    UDP transport is allocated) and whether [run()] started the listener
    thread. *)
Record Referee : Type := {
  controller : RefereeGameController;
  transport : option Z;
  listening : bool
}.

Definition set_teamID (v : Z) (s : RefereeState) : RefereeState :=
  mkState v (teamColor s) (opponentID s) (teamScore s) (opponentScore s)
    (gameState s) (isPenaltyShoot s) (kickOffMode s) (kickOffSide s)
    (isPenalized s) (remainingPenalizedTime s) (counter s).

(** [allocated] tells whether [new TransportUDP] gave a transport,
    [opened] what [transport->open()] returns. *)
Definition init (cfg : Config) (allocated opened : bool) (r : Referee) : Referee :=
  let this := controller r in
  let s := set_teamID (game_team_id cfg) (state this) in
  let s :=
    if negb (String.eqb (game_team_color cfg) "")
    then set_teamColor
           (if String.eqb (game_team_color cfg) "magenta" then Magenta else Cyan) s
    else s in
  let enabled := negb (0 =? referee_enabled cfg) in
  if negb enabled then
    {| controller := mkController s enabled (GCinitialized this) (gcPort this);
       transport := transport r;
       listening := listening r |}
  else
    let this' := mkController s enabled (GCinitialized this) (referee_port cfg) in
    if negb allocated then
      {| controller := this'; transport := None; listening := listening r |}
    else if negb opened then
      {| controller := this';
         transport := Some (referee_port cfg);
         listening := listening r |}
    else
      {| controller := this';
         transport := Some (referee_port cfg);
         listening := true |}.

(** The [gcInfo] message: [None] when the field [sendrequest] is absent. *)
Record GCInfo : Type := {
  sendrequest : option bool
}.

(** The message handed to [broadcastMessage]. *)
Record Broadcast : Type := {
  robotid : Z;
  robotgamecontrollerport : Z
}.

(** The broadcasts made and the value returned. *)
Definition messageCallback (robotID : Z) (this : RefereeGameController)
    (message : GCInfo) : list Broadcast * bool :=
  match sendrequest message with
  | Some true =>
      ([ {| robotid := robotID; robotgamecontrollerport := gcPort this |} ], true)
  | _ => ([], true)
  end.

(** ** class GameCtrl and its main loop (src/unnamed/part_000) *)

Module Ctrl.
Record GameCtrl : Type := {
  udp : bool;                        (* the socket pointer is not null *)
  teamNumber : Z;
  gameCtrlData : RoboCupGameControlData;
  previousState : Z;
  previousSecondaryState : Z;
  previousKickOffTeam : Z;
  previousTeamColour : Z;
  previousPenalty : Z;
  whenPacketWasReceived : Z;
  whenPacketWasSent : Z
}.
End Ctrl.

(** What the five configuration calls on the new socket return. *)
Record UdpSetup : Type := {
  setBlocking : bool;
  setBroadcast : bool;
  bind : bool;
  setTarget : bool;
  setLoopback : bool
}.

(** What one poll of ALMemory returns: whether the value is binary, its
    size, and its bytes seen as the struct. *)
Record ALValue : Type := {
  isBinary : bool;
  getSize : Z;
  content : RoboCupGameControlData
}.

(** The reads one call of [receive] gets to see: those before the first
    size that is not positive. *)
Fixpoint consumed (reads : list (Z * Buffer)) : list (Z * Buffer) :=
  match reads with
  | [] => []
  | (size, buffer) :: rest =>
      if 0 <? size then (size, buffer) :: consumed rest else []
  end.

Section GameCtrlObject.
Context `{GameControlHeader}.

(** The struct after [memset(&gameCtrlData, 0, sizeof(gameCtrlData))]. *)
Definition zero_team : TeamInfo := {|
  teamNumber := 0;
  teamColour := 0;
  score := 0;
  players := repeat no_player (Z.to_nat MAX_NUM_PLAYERS)
|}.

Definition zero_data : RoboCupGameControlData := {|
  Data.version := 0;
  Data.state := 0;
  Data.secGameState := 0;
  Data.kickOffTeam := 0;
  Data.teams_0 := zero_team;
  Data.teams_1 := zero_team
|}.

(** [GameCtrl::init]; [(uint8_t) -1] is 255. *)
Definition GameCtrl_init (g : Ctrl.GameCtrl) : Ctrl.GameCtrl := {|
  Ctrl.udp := Ctrl.udp g;
  Ctrl.teamNumber := Ctrl.teamNumber g;
  Ctrl.gameCtrlData := zero_data;
  Ctrl.previousState := 255;
  Ctrl.previousSecondaryState := 255;
  Ctrl.previousKickOffTeam := 255;
  Ctrl.previousTeamColour := 255;
  Ctrl.previousPenalty := 255;
  Ctrl.whenPacketWasReceived := 0;
  Ctrl.whenPacketWasSent := 0
|}.

(** The constructor: [udp(0)], [teamNumber(0)], [init()], then the socket,
    which is dropped again if one of the configuration calls fails.
    [garbage] is the object before its members are initialised. *)
Definition GameCtrl_new (garbage : Ctrl.GameCtrl) (setup : UdpSetup) : Ctrl.GameCtrl :=
  let g := GameCtrl_init {|
    Ctrl.udp := false;
    Ctrl.teamNumber := 0;
    Ctrl.gameCtrlData := Ctrl.gameCtrlData garbage;
    Ctrl.previousState := Ctrl.previousState garbage;
    Ctrl.previousSecondaryState := Ctrl.previousSecondaryState garbage;
    Ctrl.previousKickOffTeam := Ctrl.previousKickOffTeam garbage;
    Ctrl.previousTeamColour := Ctrl.previousTeamColour garbage;
    Ctrl.previousPenalty := Ctrl.previousPenalty garbage;
    Ctrl.whenPacketWasReceived := Ctrl.whenPacketWasReceived garbage;
    Ctrl.whenPacketWasSent := Ctrl.whenPacketWasSent garbage
  |} in
  let failed :=
    negb (setBlocking setup) || negb (setBroadcast setup) || negb (bind setup)
    || negb (setTarget setup) || negb (setLoopback setup) in
  {| Ctrl.udp := negb failed;
     Ctrl.teamNumber := Ctrl.teamNumber g;
     Ctrl.gameCtrlData := Ctrl.gameCtrlData g;
     Ctrl.previousState := Ctrl.previousState g;
     Ctrl.previousSecondaryState := Ctrl.previousSecondaryState g;
     Ctrl.previousKickOffTeam := Ctrl.previousKickOffTeam g;
     Ctrl.previousTeamColour := Ctrl.previousTeamColour g;
     Ctrl.previousPenalty := Ctrl.previousPenalty g;
     Ctrl.whenPacketWasReceived := Ctrl.whenPacketWasReceived g;
     Ctrl.whenPacketWasSent := Ctrl.whenPacketWasSent g |}.

Definition set_teamNumber (v : Z) (g : Ctrl.GameCtrl) : Ctrl.GameCtrl := {|
  Ctrl.udp := Ctrl.udp g;
  Ctrl.teamNumber := v;
  Ctrl.gameCtrlData := Ctrl.gameCtrlData g;
  Ctrl.previousState := Ctrl.previousState g;
  Ctrl.previousSecondaryState := Ctrl.previousSecondaryState g;
  Ctrl.previousKickOffTeam := Ctrl.previousKickOffTeam g;
  Ctrl.previousTeamColour := Ctrl.previousTeamColour g;
  Ctrl.previousPenalty := Ctrl.previousPenalty g;
  Ctrl.whenPacketWasReceived := Ctrl.whenPacketWasReceived g;
  Ctrl.whenPacketWasSent := Ctrl.whenPacketWasSent g
|}.

Definition set_gameCtrlData (v : RoboCupGameControlData) (g : Ctrl.GameCtrl)
  : Ctrl.GameCtrl := {|
  Ctrl.udp := Ctrl.udp g;
  Ctrl.teamNumber := Ctrl.teamNumber g;
  Ctrl.gameCtrlData := v;
  Ctrl.previousState := Ctrl.previousState g;
  Ctrl.previousSecondaryState := Ctrl.previousSecondaryState g;
  Ctrl.previousKickOffTeam := Ctrl.previousKickOffTeam g;
  Ctrl.previousTeamColour := Ctrl.previousTeamColour g;
  Ctrl.previousPenalty := Ctrl.previousPenalty g;
  Ctrl.whenPacketWasReceived := Ctrl.whenPacketWasReceived g;
  Ctrl.whenPacketWasSent := Ctrl.whenPacketWasSent g
|}.

(** [GameCtrl::receive] on the object: without a socket the loop is not
    entered; [received] starts as [false]. *)
Definition GameCtrl_receive (g : Ctrl.GameCtrl) (reads : list (Z * Buffer))
  : Ctrl.GameCtrl * bool :=
  if Ctrl.udp g then
    let '(copy, received) :=
      receive (Ctrl.teamNumber g) (Ctrl.gameCtrlData g) false reads in
    (set_gameCtrlData copy g, received)
  else (g, false).

(** The loop of [main]: one call of [receive] per element of [polls],
    which lists what the reads of that call return; the result is what is
    printed. *)
Fixpoint main_loop (g : Ctrl.GameCtrl) (polls : list (list (Z * Buffer))) : list Z :=
  match polls with
  | [] => []
  | reads :: rest =>
      let '(g', received) := GameCtrl_receive g reads in
      if received
      then Data.state (Ctrl.gameCtrlData g') :: main_loop g' rest
      else main_loop g' rest
  end.

(** [main]: the object is constructed, its team number set to 2, and the
    loop entered. *)
Definition GameCtrl_main (garbage : Ctrl.GameCtrl) (setup : UdpSetup)
    (polls : list (list (Z * Buffer))) : list Z :=
  main_loop (set_teamNumber 2 (GameCtrl_new garbage setup)) polls.

(** The loop of the ALMemory client (second program of
    src/fumanoid.cpp): one value per pass; the local copy is overwritten
    by a binary value of the size of the struct, and its state is printed
    in every pass. *)
Fixpoint memory_loop (gameCtrlData : RoboCupGameControlData) (values : list ALValue)
  : list Z :=
  match values with
  | [] => []
  | value :: rest =>
      let gameCtrlData :=
        if isBinary value && (getSize value =? STRUCT_SIZE)
        then content value else gameCtrlData in
      Data.state gameCtrlData :: memory_loop gameCtrlData rest
  end.

End GameCtrlObject.

(** A controller of team 2 late in a match. *)
Definition example_controller_late : RefereeGameController := {|
  state := mkState 2 Magenta 9 3 4 GAME_SET true KICKOFF_DROPBALL KICKOFFSIDE_ANY
             true 7 41;
  refereeEnabled := true;
  GCinitialized := true;
  gcPort := 3838
|}.

(** An object whose members hold what was in memory, and a socket whose
    [bind] fails. *)
Definition example_garbage : Ctrl.GameCtrl := {|
  Ctrl.udp := true;
  Ctrl.teamNumber := 77;
  Ctrl.gameCtrlData := foreign_packet;
  Ctrl.previousState := 3;
  Ctrl.previousSecondaryState := 1;
  Ctrl.previousKickOffTeam := 0;
  Ctrl.previousTeamColour := 1;
  Ctrl.previousPenalty := 0;
  Ctrl.whenPacketWasReceived := 1234;
  Ctrl.whenPacketWasSent := 1200
|}.

Definition example_setup_failing : UdpSetup := {|
  setBlocking := true;
  setBroadcast := true;
  bind := false;
  setTarget := true;
  setLoopback := true
|}.

(** ** Theorems *)

Example scenario_playing :
  fst (handleRefereeMessage (H := example_header) 2
         (example_controller KICKOFF_REGULAR KICKOFFSIDE_ANY) (example_packet 7 0 0))
  = {| state := mkState 2 Magenta 5 1 0 GAME_STARTED false
                  KICKOFF_REGULAR KICKOFFSIDE_ME false 0 1;
       refereeEnabled := true; GCinitialized := true; gcPort := 3838 |}.
Proof. reflexivity. Qed.

Example scenario_penalised :
  fst (handleRefereeMessage (H := example_header) 2
         (example_controller KICKOFF_REGULAR KICKOFFSIDE_ANY) (example_packet 7 0 15))
  = {| state := mkState 2 Magenta 5 1 0 GAME_STARTED false
                  KICKOFF_REGULAR KICKOFFSIDE_ME true 15 1;
       refereeEnabled := true; GCinitialized := true; gcPort := 3838 |}.
Proof. reflexivity. Qed.

(** *** Equality tests of the enumerations *)

Lemma Color_eqb_eq (a b : Color) : Color_eqb a b = true <-> a = b.
Proof. destruct a, b; simpl; split; congruence. Qed.

Lemma GameState_eqb_eq (a b : GameState) : GameState_eqb a b = true <-> a = b.
Proof. destruct a, b; simpl; split; congruence. Qed.

Lemma KickOffMode_eqb_eq (a b : KickOffMode) : KickOffMode_eqb a b = true <-> a = b.
Proof. destruct a, b; simpl; split; congruence. Qed.

Lemma KickOffSide_eqb_eq (a b : KickOffSide) : KickOffSide_eqb a b = true <-> a = b.
Proof. destruct a, b; simpl; split; congruence. Qed.

(** Splits on the condition of the first conditional of the goal. *)
Ltac split_if :=
  match goal with
  | |- context [if ?b then _ else _] => destruct b eqn:?
  end.

Section HandlerFacts.
Context `{GameControlHeader}.

(** *** getGCRobotID *)

Lemma getGCRobotID_valid (robotID : Z) :
  1 <= robotID <= MAX_NUM_PLAYERS -> getGCRobotID robotID = robotID - 1.
Proof.
  intros [Hlo Hhi]. unfold getGCRobotID.
  destruct (Z.ltb_spec 0 robotID); [| lia].
  destruct (Z.leb_spec robotID MAX_NUM_PLAYERS); [reflexivity | lia].
Qed.

Lemma getGCRobotID_invalid (robotID : Z) :
  robotID < 1 \/ MAX_NUM_PLAYERS < robotID -> getGCRobotID robotID = -1.
Proof.
  intros Hout. unfold getGCRobotID.
  destruct (Z.ltb_spec 0 robotID); simpl; [| reflexivity].
  destruct (Z.leb_spec robotID MAX_NUM_PLAYERS); [lia | reflexivity].
Qed.

(** The index handed to the player array is one of its slots. *)
Lemma getGCRobotID_range (robotID : Z) :
  getGCRobotID robotID <> -1 -> 0 <= getGCRobotID robotID < MAX_NUM_PLAYERS.
Proof.
  unfold getGCRobotID.
  destruct (Z.ltb_spec 0 robotID); simpl; [| congruence].
  destruct (Z.leb_spec robotID MAX_NUM_PLAYERS); [lia | congruence].
Qed.

(** *** The steps that copy a value of the packet

    An assignment guarded by "differs from the stored value" stores the
    value in either case. *)

Lemma adjust_teamScore_assigns teamIndex data s :
  adjust_teamScore teamIndex data s
  = set_teamScore (score (Data.teams data teamIndex)) s.
Proof.
  unfold adjust_teamScore.
  destruct (Z.eqb_spec (score (Data.teams data teamIndex)) (teamScore s)) as [E | _];
    simpl; [| reflexivity].
  destruct s; simpl in *; subst; reflexivity.
Qed.

Lemma adjust_opponentScore_assigns teamIndex data s :
  adjust_opponentScore teamIndex data s
  = set_opponentScore (score (Data.teams data (1 - teamIndex))) s.
Proof.
  unfold adjust_opponentScore.
  destruct (Z.eqb_spec (score (Data.teams data (1 - teamIndex))) (opponentScore s))
    as [E | _]; simpl; [| reflexivity].
  destruct s; simpl in *; subst; reflexivity.
Qed.

Lemma adjust_teamColor_assigns teamIndex data s :
  adjust_teamColor teamIndex data s = set_teamColor (packet_color teamIndex data) s.
Proof.
  unfold adjust_teamColor.
  destruct (Color_eqb (packet_color teamIndex data) (teamColor s)) eqn:E;
    simpl; [| reflexivity].
  apply Color_eqb_eq in E. destruct s; simpl in *; subst; reflexivity.
Qed.

(** *** The steps that decide on the stored value

    Each of them writes its own members only ([_writes]), and what it
    writes depends on the state through those members only ([_reads]). *)

Lemma state_ext (s s' : RefereeState) :
  teamID s = teamID s' -> teamColor s = teamColor s' ->
  opponentID s = opponentID s' -> teamScore s = teamScore s' ->
  opponentScore s = opponentScore s' -> gameState s = gameState s' ->
  isPenaltyShoot s = isPenaltyShoot s' -> kickOffMode s = kickOffMode s' ->
  kickOffSide s = kickOffSide s' -> isPenalized s = isPenalized s' ->
  remainingPenalizedTime s = remainingPenalizedTime s' -> counter s = counter s' ->
  s = s'.
Proof. destruct s, s'; simpl; intros; subst; reflexivity. Qed.

Lemma handle_dropball_writes data s :
  handle_dropball data s
  = set_kickOff (kickOffMode (handle_dropball data s))
      (kickOffSide (handle_dropball data s)) s.
Proof. unfold handle_dropball. split_if; destruct s; reflexivity. Qed.

Lemma adjust_kickoff_writes teamIndex data s :
  adjust_kickoff teamIndex data s
  = set_kickOff (kickOffMode (adjust_kickoff teamIndex data s))
      (kickOffSide (adjust_kickoff teamIndex data s)) s.
Proof. unfold adjust_kickoff. split_if; destruct s; reflexivity. Qed.

Lemma adjust_gameState_writes data s :
  adjust_gameState data s = set_gameState (gameState (adjust_gameState data s)) s.
Proof. unfold adjust_gameState. repeat split_if; destruct s; reflexivity. Qed.

Lemma adjust_penaltyShoot_writes data s :
  adjust_penaltyShoot data s
  = set_isPenaltyShoot (isPenaltyShoot (adjust_penaltyShoot data s)) s.
Proof. unfold adjust_penaltyShoot. repeat split_if; destruct s; reflexivity. Qed.

Lemma handle_penalties_writes robotID teamIndex data s :
  handle_penalties robotID teamIndex data s
  = set_remainingPenalizedTime
      (remainingPenalizedTime (handle_penalties robotID teamIndex data s))
      (set_isPenalized (isPenalized (handle_penalties robotID teamIndex data s)) s).
Proof.
  unfold handle_penalties. cbv zeta. repeat split_if; destruct s; reflexivity.
Qed.

Lemma handle_dropball_reads data s s' :
  kickOffMode s = kickOffMode s' -> kickOffSide s = kickOffSide s' ->
  kickOffMode (handle_dropball data s) = kickOffMode (handle_dropball data s')
  /\ kickOffSide (handle_dropball data s) = kickOffSide (handle_dropball data s').
Proof.
  intros Em Es. unfold handle_dropball. rewrite Em.
  split_if; simpl; auto.
Qed.

Lemma adjust_kickoff_reads teamIndex data s s' :
  kickOffMode s = kickOffMode s' -> kickOffSide s = kickOffSide s' ->
  kickOffMode (adjust_kickoff teamIndex data s)
  = kickOffMode (adjust_kickoff teamIndex data s')
  /\ kickOffSide (adjust_kickoff teamIndex data s)
     = kickOffSide (adjust_kickoff teamIndex data s').
Proof.
  intros Em Es. unfold adjust_kickoff, kickoff_mismatch. rewrite Es.
  split_if; simpl; auto.
Qed.

Lemma adjust_gameState_reads data s s' :
  gameState s = gameState s' ->
  gameState (adjust_gameState data s) = gameState (adjust_gameState data s').
Proof.
  intros E. unfold adjust_gameState. rewrite E.
  repeat split_if; simpl; auto.
Qed.

Lemma adjust_penaltyShoot_reads data s s' :
  isPenaltyShoot s = isPenaltyShoot s' ->
  isPenaltyShoot (adjust_penaltyShoot data s)
  = isPenaltyShoot (adjust_penaltyShoot data s').
Proof.
  intros E. unfold adjust_penaltyShoot. rewrite E.
  repeat split_if; simpl; auto.
Qed.

Lemma handle_penalties_reads robotID teamIndex data s s' :
  isPenalized s = isPenalized s' ->
  remainingPenalizedTime s = remainingPenalizedTime s' ->
  isPenalized (handle_penalties robotID teamIndex data s)
  = isPenalized (handle_penalties robotID teamIndex data s')
  /\ remainingPenalizedTime (handle_penalties robotID teamIndex data s)
     = remainingPenalizedTime (handle_penalties robotID teamIndex data s').
Proof.
  intros Ep Et. unfold handle_penalties. cbv zeta. simpl.
  repeat split_if; simpl; auto.
Qed.

(** *** The state after an applied packet, member by member

    Every member of the result is what the one step that writes it makes
    of the state the handler started from. *)

(** Reduces the projections of assigned states and nothing else. *)
Ltac members :=
  cbn [teamID teamColor opponentID teamScore opponentScore gameState
       isPenaltyShoot kickOffMode kickOffSide isPenalized
       remainingPenalizedTime counter
       set_teamColor set_opponentID set_teamScore set_opponentScore
       set_gameState set_isPenaltyShoot set_kickOff set_isPenalized
       set_remainingPenalizedTime set_counter].

(** Discards a step that does not write the member the goal projects. *)
Ltac skip_step lemma := rewrite lemma; members.

(** The same for every deciding step still around the projected state. *)
Ltac skip_steps :=
  try skip_step handle_penalties_writes;
  try skip_step adjust_penaltyShoot_writes;
  try skip_step adjust_gameState_writes;
  try skip_step adjust_kickoff_writes;
  try skip_step handle_dropball_writes.

Lemma apply_packet_members robotID teamIndex data s :
  apply_packet robotID teamIndex data s
  = mkState
      (teamID s)
      (packet_color teamIndex data)
      (teamNumber (Data.teams data (1 - teamIndex)))
      (score (Data.teams data teamIndex))
      (score (Data.teams data (1 - teamIndex)))
      (gameState (adjust_gameState data s))
      (isPenaltyShoot (adjust_penaltyShoot data s))
      (kickOffMode (adjust_kickoff teamIndex data (handle_dropball data s)))
      (kickOffSide (adjust_kickoff teamIndex data (handle_dropball data s)))
      (isPenalized (handle_penalties robotID teamIndex data s))
      (remainingPenalizedTime (handle_penalties robotID teamIndex data s))
      (counter s + 1).
Proof.
  unfold apply_packet. cbv zeta.
  rewrite adjust_teamScore_assigns, adjust_opponentScore_assigns,
    adjust_teamColor_assigns.
  apply state_ext; members.
  - (* teamID *) skip_steps. reflexivity.
  - (* teamColor *) skip_steps. reflexivity.
  - (* opponentID *) skip_steps. reflexivity.
  - (* teamScore *) skip_steps. reflexivity.
  - (* opponentScore *) skip_steps. reflexivity.
  - (* gameState *)
    skip_step handle_penalties_writes. skip_step adjust_penaltyShoot_writes.
    apply adjust_gameState_reads; members. skip_steps. reflexivity.
  - (* isPenaltyShoot *)
    skip_step handle_penalties_writes.
    apply adjust_penaltyShoot_reads. skip_steps. reflexivity.
  - (* kickOffMode *)
    skip_step handle_penalties_writes. skip_step adjust_penaltyShoot_writes.
    skip_step adjust_gameState_writes.
    apply adjust_kickoff_reads; apply handle_dropball_reads; reflexivity.
  - (* kickOffSide *)
    skip_step handle_penalties_writes. skip_step adjust_penaltyShoot_writes.
    skip_step adjust_gameState_writes.
    apply adjust_kickoff_reads; apply handle_dropball_reads; reflexivity.
  - (* isPenalized *)
    apply handle_penalties_reads; skip_steps; reflexivity.
  - (* remainingPenalizedTime *)
    apply handle_penalties_reads; skip_steps; reflexivity.
  - (* counter *) skip_steps. reflexivity.
Qed.

(** *** The exits of the handler *)

Lemma intended_recipient_addressed s data :
  addressed s data ->
  exists teamIndex,
    (teamIndex = 0 \/ teamIndex = 1)
    /\ intended_recipient s data = Some teamIndex
    /\ teamNumber (Data.teams data teamIndex) = teamID s.
Proof.
  intros Haddr. unfold intended_recipient.
  destruct (Z.eqb_spec (teamNumber (Data.teams data 0)) (teamID s)) as [E0 | N0].
  - exists 0. auto.
  - destruct (Z.eqb_spec (teamNumber (Data.teams data 1)) (teamID s)) as [E1 | N1].
    + exists 1. auto.
    + destruct Haddr; contradiction.
Qed.

Lemma intended_recipient_foreign s data :
  ~ addressed s data -> intended_recipient s data = None.
Proof.
  intros Hno. unfold intended_recipient, addressed in *.
  destruct (Z.eqb_spec (teamNumber (Data.teams data 0)) (teamID s)); [tauto |].
  destruct (Z.eqb_spec (teamNumber (Data.teams data 1)) (teamID s)); [tauto |].
  reflexivity.
Qed.

Lemma handle_applied robotID this data :
  Data.version data = STRUCT_VERSION ->
  refereeEnabled this = true ->
  addressed (state this) data ->
  exists teamIndex,
    (teamIndex = 0 \/ teamIndex = 1)
    /\ intended_recipient (state this) data = Some teamIndex
    /\ handleRefereeMessage robotID this data
       = (mkController (apply_packet robotID teamIndex data (state this))
            true true (gcPort this), Applied).
Proof.
  intros Hv Hen Haddr.
  destruct (intended_recipient_addressed _ _ Haddr) as (teamIndex & Hti & Hrec & _).
  exists teamIndex. split; [assumption |]. split; [assumption |].
  unfold handleRefereeMessage.
  rewrite Hv, Z.eqb_refl, Hen, Hrec. reflexivity.
Qed.

(** The fall-through exit is taken by exactly the packets of the
    supported version that are addressed to the team of an enabled
    controller. *)
Lemma applied_iff robotID this data :
  snd (handleRefereeMessage robotID this data) = Applied
  <-> Data.version data = STRUCT_VERSION
      /\ refereeEnabled this = true
      /\ addressed (state this) data.
Proof.
  split.
  - unfold handleRefereeMessage.
    destruct (Z.eqb_spec (Data.version data) STRUCT_VERSION) as [Hv | _]; simpl;
      [| discriminate].
    destruct (refereeEnabled this); simpl; [| discriminate].
    destruct (intended_recipient (state this) data) as [teamIndex |] eqn:Hrec;
      simpl; [| discriminate].
    intros _. repeat split; try assumption.
    unfold intended_recipient in Hrec. unfold addressed.
    destruct (Z.eqb_spec (teamNumber (Data.teams data 0)) (teamID (state this)));
      [left; assumption |].
    destruct (Z.eqb_spec (teamNumber (Data.teams data 1)) (teamID (state this)));
      [right; assumption | discriminate].
  - intros (Hv & Hen & Haddr).
    destruct (handle_applied robotID this data Hv Hen Haddr) as (? & _ & _ & Hrun).
    rewrite Hrun. reflexivity.
Qed.

(** A disabled controller is left as it is by every packet. *)
Lemma handle_disabled robotID this data :
  refereeEnabled this = false ->
  fst (handleRefereeMessage robotID this data) = this
  /\ (snd (handleRefereeMessage robotID this data) = IgnoredVersionMismatch
      \/ snd (handleRefereeMessage robotID this data) = IgnoredDisabled).
Proof.
  intros Hoff. unfold handleRefereeMessage.
  destruct (Data.version data =? STRUCT_VERSION); simpl.
  - rewrite Hoff. simpl. auto.
  - split; [| auto]. destruct this; simpl in *; subst; reflexivity.
Qed.

Lemma handle_all_disabled robotID this packets :
  refereeEnabled this = false -> handle_all robotID this packets = this.
Proof.
  intros Hoff. unfold handle_all.
  induction packets as [| data rest IH]; simpl; [reflexivity |].
  rewrite (proj1 (handle_disabled robotID this data Hoff)). exact IH.
Qed.

(** *** The kick-off steps *)

Lemma kickoff_mismatch_dropball teamIndex data s :
  teamIndex = 0 \/ teamIndex = 1 ->
  Data.kickOffTeam data = 2 ->
  kickoff_mismatch teamIndex data s = false.
Proof.
  intros Hti Hk. unfold kickoff_mismatch. rewrite Hk.
  destruct Hti; subst teamIndex; reflexivity.
Qed.

Lemma adjust_kickoff_fires teamIndex data s :
  kickoff_mismatch teamIndex data s = true ->
  kickOffMode (adjust_kickoff teamIndex data s) = KICKOFF_REGULAR
  /\ kickOffSide (adjust_kickoff teamIndex data s) <> KICKOFFSIDE_ANY.
Proof.
  intros Hfire. unfold adjust_kickoff. rewrite Hfire. simpl.
  split; [reflexivity |]. split_if; discriminate.
Qed.

Lemma handle_dropball_consistent data s :
  kickoff_consistent s -> kickoff_consistent (handle_dropball data s).
Proof.
  unfold kickoff_consistent, handle_dropball. intros Hinv.
  split_if; simpl; auto.
Qed.

Lemma adjust_kickoff_consistent teamIndex data s :
  kickoff_consistent s -> kickoff_consistent (adjust_kickoff teamIndex data s).
Proof.
  unfold kickoff_consistent, adjust_kickoff. intros Hinv.
  split_if; simpl; [discriminate | assumption].
Qed.

Lemma apply_packet_consistent robotID teamIndex data s :
  kickoff_consistent s -> kickoff_consistent (apply_packet robotID teamIndex data s).
Proof.
  intros Hinv. rewrite apply_packet_members. unfold kickoff_consistent. simpl.
  apply (adjust_kickoff_consistent teamIndex data), handle_dropball_consistent, Hinv.
Qed.

Lemma handle_consistent robotID this data :
  kickoff_consistent (state this) ->
  kickoff_consistent (state (fst (handleRefereeMessage robotID this data))).
Proof.
  intros Hinv. unfold handleRefereeMessage.
  repeat split_if; simpl; try assumption.
  destruct (intended_recipient (state this) data); simpl; [| assumption].
  apply apply_packet_consistent, Hinv.
Qed.

(** Hence it holds along every run that starts with it. *)
Lemma handle_all_consistent robotID packets :
  forall this,
    kickoff_consistent (state this) ->
    kickoff_consistent (state (handle_all robotID this packets)).
Proof.
  unfold handle_all.
  induction packets as [| data rest IH]; simpl; intros this Hinv; [assumption |].
  apply IH, handle_consistent, Hinv.
Qed.

(** With the drop-ball code in the packet the two steps end in drop-ball
    mode; the side is the stored one if the mode was drop ball already. *)
Lemma kickoff_dropball_result teamIndex data s :
  teamIndex = 0 \/ teamIndex = 1 ->
  Data.kickOffTeam data = 2 ->
  kickOffMode (adjust_kickoff teamIndex data (handle_dropball data s))
  = KICKOFF_DROPBALL
  /\ kickOffSide (adjust_kickoff teamIndex data (handle_dropball data s))
     = if KickOffMode_eqb (kickOffMode s) KICKOFF_DROPBALL
       then kickOffSide s else KICKOFFSIDE_ANY.
Proof.
  intros Hti Hk. unfold adjust_kickoff.
  rewrite (kickoff_mismatch_dropball _ _ _ Hti Hk).
  unfold handle_dropball. rewrite Hk. simpl.
  destruct (KickOffMode_eqb (kickOffMode s) KICKOFF_DROPBALL) eqn:E; simpl.
  - apply KickOffMode_eqb_eq in E. auto.
  - auto.
Qed.

(** C4: a packet of the supported version that names the local team in
    neither team record leaves the whole controller as it was, the update
    counter included; the handler leaves through the silent [return] of
    the addressing test (through the one of the disabled link if the link
    is disabled). *)
Theorem unaddressed_packet_ignored robotID this data :
  Data.version data = STRUCT_VERSION ->
  teamNumber (Data.teams data 0) <> teamID (state this) ->
  teamNumber (Data.teams data 1) <> teamID (state this) ->
  handleRefereeMessage robotID this data
  = (this, if refereeEnabled this then IgnoredNotAddressed else IgnoredDisabled).
Proof.
  intros Hv N0 N1. unfold handleRefereeMessage.
  rewrite Hv, Z.eqb_refl. simpl.
  destruct (refereeEnabled this); simpl; [| reflexivity].
  rewrite intended_recipient_foreign; [reflexivity |].
  unfold addressed. tauto.
Qed.

(** C2: a packet of another version makes the handler log the version
    error and disable the link without touching the state; from then on
    every packet, whatever its version and addressing, leaves the
    controller as it is, so neither the state nor the disabled flag ever
    changes again. *)
Theorem version_mismatch_disables robotID this data :
  Data.version data <> STRUCT_VERSION ->
  let this' := fst (handleRefereeMessage robotID this data) in
  snd (handleRefereeMessage robotID this data) = IgnoredVersionMismatch
  /\ refereeEnabled this' = false
  /\ state this' = state this
  /\ GCinitialized this' = GCinitialized this
  /\ forall (later : list RoboCupGameControlData) (next : RoboCupGameControlData)
            (id id' : Z),
       handle_all id this' later = this'
       /\ fst (handleRefereeMessage id' (handle_all id this' later) next) = this'
       /\ snd (handleRefereeMessage id' (handle_all id this' later) next) <> Applied.
Proof.
  intros Hv this'.
  assert (Hstep : handleRefereeMessage robotID this data
                  = (mkController (state this) false (GCinitialized this) (gcPort this),
                     IgnoredVersionMismatch)).
  { unfold handleRefereeMessage.
    destruct (Z.eqb_spec (Data.version data) STRUCT_VERSION); [contradiction |].
    reflexivity. }
  subst this'. rewrite Hstep. simpl.
  repeat split; try reflexivity.
  - apply handle_all_disabled. reflexivity.
  - rewrite handle_all_disabled by reflexivity.
    apply handle_disabled. reflexivity.
  - rewrite handle_all_disabled by reflexivity.
    destruct (handle_disabled id' (mkController (state this) false
                (GCinitialized this) (gcPort this)) next eq_refl) as [_ [E | E]];
      rewrite E; discriminate.
Qed.

(** C10: an applied packet sets the team color to Magenta exactly when
    the colour code of the addressed team record is TEAM_MAGENTA, and to
    Cyan for every other code, whether or not it is the code of a team
    colour. *)
Theorem team_color_from_packet robotID this data :
  Data.version data = STRUCT_VERSION ->
  refereeEnabled this = true ->
  addressed (state this) data ->
  exists teamIndex,
    intended_recipient (state this) data = Some teamIndex
    /\ let colour := teamColour (Data.teams data teamIndex) in
       let s' := state (fst (handleRefereeMessage robotID this data)) in
       (colour = TEAM_MAGENTA -> teamColor s' = Magenta)
       /\ (colour <> TEAM_MAGENTA -> teamColor s' = Cyan).
Proof.
  intros Hv Hen Haddr.
  destruct (handle_applied robotID this data Hv Hen Haddr)
    as (teamIndex & _ & Hrec & Hrun).
  exists teamIndex. split; [assumption |].
  rewrite Hrun. simpl. rewrite apply_packet_members. simpl.
  unfold packet_color.
  destruct (Z.eqb_spec (teamColour (Data.teams data teamIndex)) TEAM_MAGENTA);
    split; intros; congruence.
Qed.

(** An applied packet with kick-off code 2 leaves the state in drop-ball
    mode; the side is written together with the mode, so it is Either
    unless the mode was drop ball before the packet. *)
Lemma dropball_takes_precedence robotID this data :
  Data.version data = STRUCT_VERSION ->
  refereeEnabled this = true ->
  addressed (state this) data ->
  Data.kickOffTeam data = 2 ->
  let s' := state (fst (handleRefereeMessage robotID this data)) in
  kickOffMode s' = KICKOFF_DROPBALL
  /\ kickOffSide s'
     = (if KickOffMode_eqb (kickOffMode (state this)) KICKOFF_DROPBALL
        then kickOffSide (state this) else KICKOFFSIDE_ANY)
  /\ (kickoff_consistent (state this) -> kickOffSide s' = KICKOFFSIDE_ANY).
Proof.
  intros Hv Hen Haddr Hk.
  destruct (handle_applied robotID this data Hv Hen Haddr)
    as (teamIndex & Hti & _ & Hrun).
  rewrite Hrun. simpl. rewrite apply_packet_members. simpl.
  destruct (kickoff_dropball_result teamIndex data (state this) Hti Hk) as [Hm Hs].
  split; [assumption |]. split; [assumption |].
  intros Hinv. rewrite Hs.
  destruct (KickOffMode_eqb (kickOffMode (state this)) KICKOFF_DROPBALL) eqn:E;
    [| reflexivity].
  apply Hinv, KickOffMode_eqb_eq, E.
Qed.

(** C1: an applied packet with kick-off code 2 leaves the state in
    drop-ball mode with side Either, whichever team record addresses the
    local team: from every state with a Regular kick off stored, whatever
    its side, and from every state the controller reaches by handling
    packets, starting from a state in which drop-ball mode goes with side
    Either. *)
Theorem dropball_forces_either robotID this data :
  Data.version data = STRUCT_VERSION ->
  refereeEnabled this = true ->
  addressed (state this) data ->
  Data.kickOffTeam data = 2 ->
  let s' := state (fst (handleRefereeMessage robotID this data)) in
  (kickOffMode (state this) = KICKOFF_REGULAR ->
     kickOffMode s' = KICKOFF_DROPBALL /\ kickOffSide s' = KICKOFFSIDE_ANY)
  /\ (forall start earlier id,
        kickoff_consistent (state start) ->
        this = handle_all id start earlier ->
        kickOffMode s' = KICKOFF_DROPBALL /\ kickOffSide s' = KICKOFFSIDE_ANY).
Proof.
  intros Hv Hen Haddr Hk.
  destruct (dropball_takes_precedence robotID this data Hv Hen Haddr Hk)
    as (Hmode & _ & Hside).
  cbv zeta in *. split.
  - intros Hreg. split; [exact Hmode |].
    apply Hside. unfold kickoff_consistent. rewrite Hreg. discriminate.
  - intros start earlier id Hinv Hrun. split; [exact Hmode |].
    apply Hside. rewrite Hrun. apply handle_all_consistent, Hinv.
Qed.

(** C9: handling a packet keeps "drop-ball mode goes with side Either"
    true of the state.  The side-mismatch step does not fire on kick-off
    code 2 and, when it fires, sets Regular mode together with a side
    that is not Either. *)
Theorem kickoff_consistent_preserved robotID this data :
  kickoff_consistent (state this) ->
  kickoff_consistent (state (fst (handleRefereeMessage robotID this data)))
  /\ (forall teamIndex s,
        teamIndex = 0 \/ teamIndex = 1 ->
        Data.kickOffTeam data = 2 ->
        kickoff_mismatch teamIndex data s = false)
  /\ (forall teamIndex s,
        kickoff_mismatch teamIndex data s = true ->
        kickOffMode (adjust_kickoff teamIndex data s) = KICKOFF_REGULAR
        /\ kickOffSide (adjust_kickoff teamIndex data s) <> KICKOFFSIDE_ANY).
Proof.
  intros Hinv. split; [| split].
  - apply handle_consistent, Hinv.
  - intros teamIndex s. apply kickoff_mismatch_dropball.
  - intros teamIndex s. apply adjust_kickoff_fires.
Qed.

(** *** What the deciding steps store *)

Lemma states_pairwise :
  codes_distinct ->
  STATE_INITIAL <> STATE_READY /\ STATE_INITIAL <> STATE_SET
  /\ STATE_INITIAL <> STATE_PLAYING /\ STATE_INITIAL <> STATE_FINISHED
  /\ STATE_READY <> STATE_SET /\ STATE_READY <> STATE_PLAYING
  /\ STATE_READY <> STATE_FINISHED /\ STATE_SET <> STATE_PLAYING
  /\ STATE_SET <> STATE_FINISHED /\ STATE_PLAYING <> STATE_FINISHED.
Proof.
  intros Hok. pose proof (states_distinct Hok) as ND.
  repeat (apply NoDup_cons_iff in ND; destruct ND as [? ND]).
  simpl in *. repeat split; intros E; rewrite E in *; tauto.
Qed.

(** The phase after the step is the one the state code of the packet
    maps to; a code outside the five leaves the stored phase. *)
Lemma adjust_gameState_result data s :
  codes_distinct ->
  gameState (adjust_gameState data s)
  = if Data.state data =? STATE_INITIAL then GAME_STOPPED
    else if Data.state data =? STATE_READY then GAME_READY
    else if Data.state data =? STATE_SET then GAME_SET
    else if Data.state data =? STATE_PLAYING then GAME_STARTED
    else if Data.state data =? STATE_FINISHED then GAME_STOPPED
    else gameState s.
Proof.
  intros Hok. pose proof (states_pairwise Hok) as Hne.
  unfold adjust_gameState.
  destruct (Z.eqb_spec (Data.state data) STATE_INITIAL);
    destruct (Z.eqb_spec (Data.state data) STATE_READY);
    destruct (Z.eqb_spec (Data.state data) STATE_SET);
    destruct (Z.eqb_spec (Data.state data) STATE_PLAYING);
    destruct (Z.eqb_spec (Data.state data) STATE_FINISHED);
    try (exfalso; intuition congruence);
    destruct (gameState s) eqn:G; simpl; try rewrite G; reflexivity.
Qed.

Lemma adjust_penaltyShoot_result data s :
  codes_distinct ->
  isPenaltyShoot (adjust_penaltyShoot data s)
  = if Data.secGameState data =? STATE2_NORMAL then false
    else if Data.secGameState data =? STATE2_PENALTYSHOOT then true
    else isPenaltyShoot s.
Proof.
  intros Hok. pose proof (secondary_distinct Hok) as Hne.
  unfold adjust_penaltyShoot.
  destruct (Z.eqb_spec (Data.secGameState data) STATE2_NORMAL);
    destruct (Z.eqb_spec (Data.secGameState data) STATE2_PENALTYSHOOT);
    try (exfalso; congruence);
    destruct (isPenaltyShoot s) eqn:P; simpl; try rewrite P; reflexivity.
Qed.

(** The penalty members after a lookup: the seconds read, cut off below
    at zero, and whether they are positive. *)
Lemma handle_penalties_lookup robotID teamIndex data s :
  getGCRobotID robotID <> -1 ->
  let secs :=
    secsTillUnpenalised
      (player (Data.teams data teamIndex) (getGCRobotID robotID)) in
  remainingPenalizedTime (handle_penalties robotID teamIndex data s) = Z.max 0 secs
  /\ isPenalized (handle_penalties robotID teamIndex data s) = (0 <? secs).
Proof.
  intros Hid. unfold handle_penalties. cbv zeta.
  destruct (Z.eqb_spec (getGCRobotID robotID) (-1)); [contradiction |]. simpl.
  destruct (Z.ltb_spec 0
              (secsTillUnpenalised
                 (player (Data.teams data teamIndex) (getGCRobotID robotID))));
    simpl; split; try reflexivity; lia.
Qed.

Lemma handle_penalties_skipped robotID teamIndex data s :
  getGCRobotID robotID = -1 -> handle_penalties robotID teamIndex data s = s.
Proof.
  intros Hid. unfold handle_penalties. cbv zeta. rewrite Hid. reflexivity.
Qed.

(** *** Applying a packet to the state it produced *)

Lemma kickoff_steps_reads teamIndex data s s' :
  kickOffMode s = kickOffMode s' -> kickOffSide s = kickOffSide s' ->
  kickOffMode (adjust_kickoff teamIndex data (handle_dropball data s))
  = kickOffMode (adjust_kickoff teamIndex data (handle_dropball data s'))
  /\ kickOffSide (adjust_kickoff teamIndex data (handle_dropball data s))
     = kickOffSide (adjust_kickoff teamIndex data (handle_dropball data s')).
Proof.
  intros Em Es.
  apply adjust_kickoff_reads; apply handle_dropball_reads; assumption.
Qed.

Lemma kickoff_steps_settled teamIndex data s :
  let s1 := adjust_kickoff teamIndex data (handle_dropball data s) in
  kickOffMode (adjust_kickoff teamIndex data (handle_dropball data s1))
  = kickOffMode s1
  /\ kickOffSide (adjust_kickoff teamIndex data (handle_dropball data s1))
     = kickOffSide s1.
Proof.
  unfold adjust_kickoff, kickoff_mismatch, handle_dropball.
  destruct s as [? ? ? ? ? ? ? mode side ? ? ?]. cbv zeta. members.
  destruct (Data.kickOffTeam data =? 2), (Data.kickOffTeam data =? teamIndex),
    (Data.kickOffTeam data =? 1 - teamIndex), mode, side; cbn; auto.
Qed.

Lemma handle_penalties_settled robotID teamIndex data s :
  let s1 := handle_penalties robotID teamIndex data s in
  isPenalized (handle_penalties robotID teamIndex data s1) = isPenalized s1
  /\ remainingPenalizedTime (handle_penalties robotID teamIndex data s1)
     = remainingPenalizedTime s1.
Proof.
  cbv zeta.
  destruct (Z.eq_dec (getGCRobotID robotID) (-1)) as [Hskip | Hlook].
  - rewrite !handle_penalties_skipped by assumption. auto.
  - destruct (handle_penalties_lookup robotID teamIndex data s Hlook) as [Et Ep].
    destruct (handle_penalties_lookup robotID teamIndex data
                (handle_penalties robotID teamIndex data s) Hlook) as [Et' Ep'].
    cbv zeta in *. split; congruence.
Qed.

Lemma apply_packet_twice robotID teamIndex data s :
  codes_distinct ->
  let s1 := apply_packet robotID teamIndex data s in
  apply_packet robotID teamIndex data s1 = set_counter (counter s1 + 1) s1.
Proof.
  intros Hok s1.
  pose proof (apply_packet_members robotID teamIndex data s) as Hs1.
  fold s1 in Hs1. clearbody s1.
  assert (Hm : kickOffMode s1
               = kickOffMode (adjust_kickoff teamIndex data (handle_dropball data s)))
    by (rewrite Hs1; reflexivity).
  assert (Hk : kickOffSide s1
               = kickOffSide (adjust_kickoff teamIndex data (handle_dropball data s)))
    by (rewrite Hs1; reflexivity).
  assert (Hp : isPenalized s1
               = isPenalized (handle_penalties robotID teamIndex data s))
    by (rewrite Hs1; reflexivity).
  assert (Ht : remainingPenalizedTime s1
               = remainingPenalizedTime (handle_penalties robotID teamIndex data s))
    by (rewrite Hs1; reflexivity).
  rewrite apply_packet_members.
  apply state_ext; members; try (rewrite Hs1; reflexivity).
  - (* gameState *)
    rewrite (adjust_gameState_result data s1 Hok).
    rewrite Hs1. members.
    rewrite (adjust_gameState_result data s Hok).
    repeat split_if; reflexivity.
  - (* isPenaltyShoot *)
    rewrite (adjust_penaltyShoot_result data s1 Hok).
    rewrite Hs1. members.
    rewrite (adjust_penaltyShoot_result data s Hok).
    repeat split_if; reflexivity.
  - (* kickOffMode *)
    destruct (kickoff_steps_reads teamIndex data _ _ Hm Hk) as [E _].
    rewrite E, Hm. apply kickoff_steps_settled.
  - (* kickOffSide *)
    destruct (kickoff_steps_reads teamIndex data _ _ Hm Hk) as [_ E].
    rewrite E, Hk. apply kickoff_steps_settled.
  - (* isPenalized *)
    destruct (handle_penalties_reads robotID teamIndex data _ _ Hp Ht) as [E _].
    rewrite E, Hp. apply handle_penalties_settled.
  - (* remainingPenalizedTime *)
    destruct (handle_penalties_reads robotID teamIndex data _ _ Hp Ht) as [_ E].
    rewrite E, Ht. apply handle_penalties_settled.
Qed.

Lemma intended_recipient_reads s s' data :
  teamID s = teamID s' -> intended_recipient s data = intended_recipient s' data.
Proof. intros E. unfold intended_recipient. rewrite E. reflexivity. Qed.

(** C3: a packet of the supported version addressed to the local team is
    applied both times when it is handled twice in a row; the second
    application yields the controller of the first with the update counter
    one higher and every other member (scores, opponent, color, kick off,
    phase, shoot-out flag, penalty members, initialized flag) as the first
    application left it. *)
Theorem reconcile_idempotent robotID this data :
  codes_distinct ->
  Data.version data = STRUCT_VERSION ->
  refereeEnabled this = true ->
  addressed (state this) data ->
  let first := handleRefereeMessage robotID this data in
  let second := handleRefereeMessage robotID (fst first) data in
  snd first = Applied
  /\ snd second = Applied
  /\ fst second
     = mkController
         (set_counter (counter (state (fst first)) + 1) (state (fst first)))
         (refereeEnabled (fst first)) (GCinitialized (fst first))
         (gcPort (fst first)).
Proof.
  intros Hok Hv Hen Haddr.
  destruct (handle_applied robotID this data Hv Hen Haddr)
    as (teamIndex & Hti & Hrec & Hrun).
  cbv zeta. rewrite Hrun. simpl fst. simpl snd.
  split; [reflexivity |].
  assert (Hrec' : intended_recipient
                    (apply_packet robotID teamIndex data (state this)) data
                  = Some teamIndex).
  { rewrite <- Hrec. apply intended_recipient_reads.
    rewrite apply_packet_members. reflexivity. }
  unfold handleRefereeMessage.
  rewrite Hv, Z.eqb_refl. simpl. rewrite Hrec'. simpl.
  split; [reflexivity |].
  rewrite (apply_packet_twice robotID teamIndex data (state this) Hok).
  reflexivity.
Qed.

(** C5: after an applied packet handled by a robot whose identifier is in
    [1, MAX_NUM_PLAYERS] the remaining penalty time is not negative and
    the robot counts as penalized exactly when that time is positive; the
    flag is "the seconds read from the player entry are positive", and
    seconds that are not negative are stored as read. *)
Theorem penalty_members_after_lookup robotID this data :
  Data.version data = STRUCT_VERSION ->
  refereeEnabled this = true ->
  addressed (state this) data ->
  1 <= robotID <= MAX_NUM_PLAYERS ->
  let s' := state (fst (handleRefereeMessage robotID this data)) in
  0 <= remainingPenalizedTime s'
  /\ (isPenalized s' = true <-> 0 < remainingPenalizedTime s')
  /\ exists teamIndex,
       intended_recipient (state this) data = Some teamIndex
       /\ let secs :=
            secsTillUnpenalised (player (Data.teams data teamIndex) (robotID - 1)) in
          isPenalized s' = (0 <? secs)
          /\ (0 <= secs -> remainingPenalizedTime s' = secs).
Proof.
  intros Hv Hen Haddr Hid.
  destruct (handle_applied robotID this data Hv Hen Haddr)
    as (teamIndex & Hti & Hrec & Hrun).
  rewrite Hrun. simpl. rewrite apply_packet_members. members.
  assert (Hlook : getGCRobotID robotID <> -1)
    by (rewrite getGCRobotID_valid by assumption; lia).
  destruct (handle_penalties_lookup robotID teamIndex data (state this) Hlook)
    as [Et Ep].
  cbv zeta in Et, Ep. rewrite getGCRobotID_valid in Et, Ep by assumption.
  rewrite Et, Ep.
  split; [lia |]. split.
  - rewrite Z.ltb_lt. lia.
  - exists teamIndex. split; [assumption |]. cbv zeta.
    split; [reflexivity | lia].
Qed.

(** The kick-off members after the two kick-off steps, from the members
    before them and the kick-off code of the packet alone. *)
Lemma kickoff_steps_result teamIndex data s :
  teamIndex = 0 \/ teamIndex = 1 ->
  let s' := adjust_kickoff teamIndex data (handle_dropball data s) in
  (kickOffMode s', kickOffSide s')
  = if Data.kickOffTeam data =? 2
    then (KICKOFF_DROPBALL,
          if KickOffMode_eqb (kickOffMode s) KICKOFF_DROPBALL
          then kickOffSide s else KICKOFFSIDE_ANY)
    else if Data.kickOffTeam data =? teamIndex
    then (if KickOffSide_eqb (kickOffSide s) KICKOFFSIDE_ME
          then kickOffMode s else KICKOFF_REGULAR,
          KICKOFFSIDE_ME)
    else if Data.kickOffTeam data =? 1 - teamIndex
    then (if KickOffSide_eqb (kickOffSide s) KICKOFFSIDE_OPPONENT
          then kickOffMode s else KICKOFF_REGULAR,
          KICKOFFSIDE_OPPONENT)
    else (kickOffMode s, kickOffSide s).
Proof.
  intros Hti. cbv zeta.
  destruct (Z.eqb_spec (Data.kickOffTeam data) 2) as [Hk | Hk].
  - destruct (kickoff_dropball_result teamIndex data s Hti Hk) as [Em Es].
    rewrite Em, Es. reflexivity.
  - unfold adjust_kickoff, kickoff_mismatch, handle_dropball.
    destruct (Z.eqb_spec (Data.kickOffTeam data) 2); [contradiction |].
    cbn [andb].
    destruct (Z.eqb_spec (Data.kickOffTeam data) teamIndex) as [Eown | Nown].
    + destruct (Z.eqb_spec (Data.kickOffTeam data) (1 - teamIndex));
        [exfalso; lia |].
      cbn [andb orb].
      destruct (KickOffSide_eqb (kickOffSide s) KICKOFFSIDE_ME) eqn:E;
        cbn [negb orb]; [| reflexivity].
      apply KickOffSide_eqb_eq in E. rewrite E. reflexivity.
    + cbn [andb orb].
      destruct (Z.eqb_spec (Data.kickOffTeam data) (1 - teamIndex));
        cbn [andb]; [| reflexivity].
      destruct (KickOffSide_eqb (kickOffSide s) KICKOFFSIDE_OPPONENT) eqn:E;
        cbn [negb]; [| reflexivity].
      apply KickOffSide_eqb_eq in E. rewrite E. reflexivity.
Qed.

Lemma int16_t_small (v : Z) : -32768 <= v <= 32767 -> int16_t v = v.
Proof.
  intros Hv. unfold int16_t. rewrite Z.mod_small by lia. lia.
Qed.

(** C8: the handler hands the robot identifier to [getGCRobotID] as an
    [int16_t], which is the identifier itself whenever it has 16 bits.
    With that identifier outside [1, MAX_NUM_PLAYERS] the lookup is
    skipped: an applied packet leaves the two penalty members as they
    were while every other step applies, so the counter is one higher,
    opponent, scores and color are those of the packet, kick off, phase
    and shoot-out flag are what their steps make of the stored ones, the
    controller counts as initialized and the link stays enabled.  With
    the identifier inside the range it maps to the player index one below
    it and the penalty members come from that entry. *)
Theorem invalid_robot_skips_lookup robotID this data :
  Data.version data = STRUCT_VERSION ->
  refereeEnabled this = true ->
  addressed (state this) data ->
  let id := int16_t robotID in
  let run := handleRefereeMessage id this data in
  let s := state this in
  let s' := state (fst run) in
  exists teamIndex,
    intended_recipient s data = Some teamIndex
    /\ (-32768 <= robotID <= 32767 -> id = robotID)
    /\ (id < 1 \/ MAX_NUM_PLAYERS < id ->
          getGCRobotID id = -1
          /\ snd run = Applied
          /\ refereeEnabled (fst run) = true
          /\ GCinitialized (fst run) = true
          /\ s' = mkState
                    (teamID s)
                    (if teamColour (Data.teams data teamIndex) =? TEAM_MAGENTA
                     then Magenta else Cyan)
                    (teamNumber (Data.teams data (1 - teamIndex)))
                    (score (Data.teams data teamIndex))
                    (score (Data.teams data (1 - teamIndex)))
                    (gameState (adjust_gameState data s))
                    (isPenaltyShoot (adjust_penaltyShoot data s))
                    (kickOffMode
                       (adjust_kickoff teamIndex data (handle_dropball data s)))
                    (kickOffSide
                       (adjust_kickoff teamIndex data (handle_dropball data s)))
                    (isPenalized s)
                    (remainingPenalizedTime s)
                    (counter s + 1)
          /\ (kickOffMode s', kickOffSide s')
             = (if Data.kickOffTeam data =? 2
                then (KICKOFF_DROPBALL,
                      if KickOffMode_eqb (kickOffMode s) KICKOFF_DROPBALL
                      then kickOffSide s else KICKOFFSIDE_ANY)
                else if Data.kickOffTeam data =? teamIndex
                then (if KickOffSide_eqb (kickOffSide s) KICKOFFSIDE_ME
                      then kickOffMode s else KICKOFF_REGULAR,
                      KICKOFFSIDE_ME)
                else if Data.kickOffTeam data =? 1 - teamIndex
                then (if KickOffSide_eqb (kickOffSide s) KICKOFFSIDE_OPPONENT
                      then kickOffMode s else KICKOFF_REGULAR,
                      KICKOFFSIDE_OPPONENT)
                else (kickOffMode s, kickOffSide s))
          /\ (codes_distinct ->
                gameState s'
                = (if Data.state data =? STATE_INITIAL then GAME_STOPPED
                   else if Data.state data =? STATE_READY then GAME_READY
                   else if Data.state data =? STATE_SET then GAME_SET
                   else if Data.state data =? STATE_PLAYING then GAME_STARTED
                   else if Data.state data =? STATE_FINISHED then GAME_STOPPED
                   else gameState s)
                /\ isPenaltyShoot s'
                   = (if Data.secGameState data =? STATE2_NORMAL then false
                      else if Data.secGameState data =? STATE2_PENALTYSHOOT
                      then true
                      else isPenaltyShoot s))
          /\ forall other : Z,
               s' = set_remainingPenalizedTime (remainingPenalizedTime s)
                      (set_isPenalized (isPenalized s)
                         (state (fst (handleRefereeMessage other this data)))))
    /\ (1 <= id <= MAX_NUM_PLAYERS ->
          getGCRobotID id = id - 1
          /\ let secs :=
               secsTillUnpenalised
                 (player (Data.teams data teamIndex) (id - 1)) in
             remainingPenalizedTime s' = Z.max 0 secs
             /\ isPenalized s' = (0 <? secs)).
Proof.
  intros Hv Hen Haddr. cbv zeta.
  destruct (handle_applied (int16_t robotID) this data Hv Hen Haddr)
    as (teamIndex & Hti & Hrec & Hrun).
  exists teamIndex. split; [assumption |].
  split; [apply int16_t_small |].
  rewrite Hrun. simpl fst. simpl snd.
  cbn [state refereeEnabled GCinitialized].
  rewrite apply_packet_members. split.
  - intros Hout. apply getGCRobotID_invalid in Hout.
    rewrite (handle_penalties_skipped (int16_t robotID) teamIndex data
               (state this) Hout).
    members.
    split; [assumption |]. split; [reflexivity |]. split; [reflexivity |].
    split; [reflexivity |]. split; [reflexivity |].
    split; [apply (kickoff_steps_result teamIndex data (state this) Hti) |].
    split.
    + intros Hok. split;
        [apply adjust_gameState_result | apply adjust_penaltyShoot_result];
        assumption.
    + intros other.
      destruct (handle_applied other this data Hv Hen Haddr)
        as (teamIndex' & _ & Hrec' & Hrun').
      assert (teamIndex' = teamIndex) by congruence. subst teamIndex'.
      rewrite Hrun'. cbn [fst state]. rewrite apply_packet_members. reflexivity.
  - intros Hin. split; [apply getGCRobotID_valid; assumption |].
    members.
    assert (Hlook : getGCRobotID (int16_t robotID) <> -1)
      by (rewrite getGCRobotID_valid by assumption; lia).
    destruct (handle_penalties_lookup (int16_t robotID) teamIndex data
                (state this) Hlook) as [Et Ep].
    cbv zeta in Et, Ep. rewrite getGCRobotID_valid in Et, Ep by assumption.
    cbv zeta. auto.
Qed.

End HandlerFacts.

(** *** The receive loop *)

(** Against a tag of four characters none of which is NUL, [strncmp]
    over four characters compares the first four bytes. *)
Lemma strncmp_tag (b tag : list Z) :
  length tag = 4%nat ->
  Forall (fun ch => 0 < ch < 256) tag ->
  strncmp b tag 4 = 0 <-> firstn 4 b = tag.
Proof.
  intros Hlen Hch.
  destruct tag as [| h1 [| h2 [| h3 [| h4 [| ? ?]]]]]; try discriminate.
  repeat match goal with
         | F : Forall _ (_ :: _) |- _ =>
             let P := fresh "P" in
             apply Forall_cons_iff in F; destruct F as [P F]
         end.
  destruct b as [| b1 [| b2 [| b3 [| b4 rest]]]]; cbn [strncmp hd tl firstn];
    repeat match goal with
           | |- context [Z.eqb ?x ?y] => destruct (Z.eqb_spec x y); subst
           end;
    split; intros E; try reflexivity; try congruence; try lia;
    try (injection E; intros; subst; lia).
Qed.

Section ListenerFacts.
Context `{GameControlHeader}.

Lemma header_test (buffer : Buffer) :
  tag_ok ->
  (strncmp (bytes buffer) STRUCT_HEADER 4 =? 0) = true <-> has_magic buffer.
Proof.
  intros Hok. rewrite Z.eqb_eq. unfold has_magic.
  apply strncmp_tag; [apply (header_length Hok) | apply (header_chars Hok)].
Qed.

(** The handler changes neither the team number nor the port. *)
Lemma handle_keeps_identity robotID this data :
  teamID (state (fst (handleRefereeMessage robotID this data))) = teamID (state this)
  /\ gcPort (fst (handleRefereeMessage robotID this data)) = gcPort this.
Proof.
  unfold handleRefereeMessage.
  repeat split_if; simpl; auto.
  destruct (intended_recipient (state this) data); simpl; auto.
  rewrite apply_packet_members. auto.
Qed.

(** C6, as the code has it: the tag is tested before the length.  A
    datagram that starts with the magic tag and has another length than
    the struct ends the iteration in the size error; a datagram that does
    not start with the tag ends it in the silent branch of the tag test
    whatever its length, the wrong lengths included; a read of no bytes is
    a receive error.  None of them changes the controller or writes to the
    transport, and none of them is taken over by [GameCtrl::receive]. *)
Theorem malformed_datagram_discarded robotID this received buffer remoteAddress :
  tag_ok ->
  let result :=
    threadMain_iteration robotID this (Datagram received buffer remoteAddress) in
  (received <= 0 -> result = (this, [], ReceiveError))
  /\ (0 < received -> has_magic buffer -> received <> STRUCT_SIZE ->
      result = (this, [], SizeMismatch))
  /\ (0 < received -> ~ has_magic buffer -> result = (this, [], BadHeader))
  /\ (0 < received -> received <> STRUCT_SIZE \/ ~ has_magic buffer ->
      forall ownTeam gameCtrlData flag rest,
        receive ownTeam gameCtrlData flag ((received, buffer) :: rest)
        = receive ownTeam gameCtrlData flag rest).
Proof.
  intros Hok result. subst result. unfold threadMain_iteration.
  repeat split.
  - intros Hrecv. destruct (Z.leb_spec received 0); [reflexivity | lia].
  - intros Hrecv Hmagic Hsize.
    destruct (Z.leb_spec received 0); [lia |].
    apply (header_test buffer Hok) in Hmagic. rewrite Hmagic.
    destruct (Z.eqb_spec received STRUCT_SIZE); [contradiction | reflexivity].
  - intros Hrecv Hmagic.
    destruct (Z.leb_spec received 0); [lia |].
    destruct (strncmp (bytes buffer) STRUCT_HEADER 4 =? 0) eqn:E; [| reflexivity].
    apply (header_test buffer Hok) in E. contradiction.
  - intros Hrecv Hbad ownTeam gameCtrlData flag rest. simpl.
    destruct (Z.ltb_spec 0 received); [| lia].
    assert (Hrej : accepted ownTeam received buffer = false).
    { unfold accepted.
      destruct (Z.eqb_spec received STRUCT_SIZE); simpl; [| reflexivity].
      destruct Hbad as [Hbad | Hbad]; [contradiction |].
      unfold memcmp4_eq.
      destruct (list_eq_dec Z.eq_dec (firstn 4 (bytes buffer))
                  (firstn 4 STRUCT_HEADER)) as [E | _]; [| reflexivity].
      exfalso. apply Hbad. unfold has_magic. rewrite E.
      apply firstn_all2. rewrite (header_length Hok). apply le_n. }
    rewrite Hrej. reflexivity.
Qed.

(** C7, as the code has it: after every datagram that starts with the
    magic tag and has the length of the struct the loop hands the packet
    to the handler and then writes one return packet to the sender's
    address at the referee port, with message ALIVE, the local team number
    and the robot identifier, whichever exit the handler took (applied,
    not addressed, other version, link disabled).  Every other iteration
    writes nothing. *)
Theorem acknowledgement_after_every_packet robotID this input :
  tag_ok ->
  let result := threadMain_iteration robotID this input in
  (forall received buffer remoteAddress,
     input = Datagram received buffer remoteAddress ->
     0 < received -> has_magic buffer -> received = STRUCT_SIZE ->
     result
     = (fst (handleRefereeMessage robotID this (data buffer)),
        [ {| status :=
               {| ReturnData.header := strncpy GAMECONTROLLER_RETURN_STRUCT_HEADER 4;
                  ReturnData.version := GAMECONTROLLER_RETURN_STRUCT_VERSION;
                  ReturnData.team := teamID (state this);
                  ReturnData.player := robotID;
                  ReturnData.message := GAMECONTROLLER_RETURN_MSG_ALIVE |};
             destination := {| sin_addr := sin_addr remoteAddress;
                               sin_port := gcPort this |} |} ],
        Handled (snd (handleRefereeMessage robotID this (data buffer)))))
  /\ ((forall outcome, snd result <> Handled outcome) -> snd (fst result) = []).
Proof.
  intros Hok result. subst result. split.
  - intros received buffer remoteAddress -> Hrecv Hmagic Hsize.
    unfold threadMain_iteration.
    destruct (Z.leb_spec received 0); [lia |].
    apply (header_test buffer Hok) in Hmagic. rewrite Hmagic.
    rewrite Hsize, Z.eqb_refl. simpl.
    destruct (handle_keeps_identity robotID this (data buffer)) as [Eteam Eport].
    destruct (handleRefereeMessage robotID this (data buffer)) as [this' outcome].
    simpl in *. unfold alive_status. rewrite Eteam, Eport. reflexivity.
  - intros Hnot. unfold threadMain_iteration in *.
    destruct input as [| received buffer remoteAddress]; [reflexivity |].
    repeat split_if; try reflexivity.
    exfalso.
    destruct (handleRefereeMessage robotID this (data buffer)) as [this' outcome].
    simpl in Hnot. apply (Hnot outcome). reflexivity.
Qed.

End ListenerFacts.

(** ** The theorems at concrete packets *)

Lemma example_codes_distinct : codes_distinct (H := example_header).
Proof.
  constructor; simpl.
  - repeat (constructor; [simpl; intuition discriminate |]). constructor.
  - discriminate.
Qed.

Lemma example_tag_ok : tag_ok (H := example_header).
Proof.
  constructor; simpl.
  - reflexivity.
  - repeat (constructor; [lia |]). constructor.
Qed.

(** C1 at a drop-ball packet, for a controller with a Regular kick off
    for the own team and for the controller a kick off by the opponent
    left behind. *)
Lemma dropball_forces_either_witness :
  (let s' :=
     state (fst (handleRefereeMessage (H := example_header) 2
                   (example_controller KICKOFF_REGULAR KICKOFFSIDE_ME)
                   (example_packet 7 2 0))) in
   kickOffMode s' = KICKOFF_DROPBALL /\ kickOffSide s' = KICKOFFSIDE_ANY)
  /\ (let this :=
        handle_all (H := example_header) 2
          (example_controller KICKOFF_REGULAR KICKOFFSIDE_ANY)
          [example_packet 7 1 0] in
      let s' :=
        state (fst (handleRefereeMessage (H := example_header) 2 this
                      (example_packet 7 2 0))) in
      kickOffMode s' = KICKOFF_DROPBALL /\ kickOffSide s' = KICKOFFSIDE_ANY).
Proof.
  split.
  - destruct (dropball_forces_either (H := example_header) 2
                (example_controller KICKOFF_REGULAR KICKOFFSIDE_ME)
                (example_packet 7 2 0))
      as [Hreg _]; [reflexivity | reflexivity | left; reflexivity | reflexivity |].
    apply Hreg. reflexivity.
  - destruct (dropball_forces_either (H := example_header) 2
                (handle_all (H := example_header) 2
                   (example_controller KICKOFF_REGULAR KICKOFFSIDE_ANY)
                   [example_packet 7 1 0])
                (example_packet 7 2 0))
      as [_ Hrun]; [reflexivity | reflexivity | left; reflexivity | reflexivity |].
    apply (Hrun (example_controller KICKOFF_REGULAR KICKOFFSIDE_ANY)
             [example_packet 7 1 0] 2); [| reflexivity].
    intros E. discriminate E.
Defined.

(** C2 at a packet of version 6 followed by two packets of version 7
    addressed to the team. *)
Lemma version_mismatch_disables_witness :
  let this := example_controller KICKOFF_REGULAR KICKOFFSIDE_ANY in
  let this' :=
    fst (handleRefereeMessage (H := example_header) 2 this (example_packet 6 0 0)) in
  refereeEnabled this' = false
  /\ state this' = state this
  /\ fst (handleRefereeMessage (H := example_header) 2
            (handle_all (H := example_header) 2 this' [example_packet 7 0 0])
            (example_packet 7 1 15))
     = this'.
Proof.
  destruct (version_mismatch_disables (H := example_header) 2
              (example_controller KICKOFF_REGULAR KICKOFFSIDE_ANY)
              (example_packet 6 0 0))
    as (_ & Hoff & Hstate & _ & Hlater); [discriminate |].
  cbv zeta. split; [exact Hoff |]. split; [exact Hstate |].
  apply (Hlater [example_packet 7 0 0] (example_packet 7 1 15) 2 2).
Defined.

(** C3 at the packet of the playing scenario. *)
Lemma reconcile_idempotent_witness :
  let first :=
    handleRefereeMessage (H := example_header) 2
      (example_controller KICKOFF_REGULAR KICKOFFSIDE_ANY) (example_packet 7 0 15) in
  let second :=
    handleRefereeMessage (H := example_header) 2 (fst first) (example_packet 7 0 15) in
  snd first = Applied
  /\ snd second = Applied
  /\ fst second
     = mkController
         (set_counter (counter (state (fst first)) + 1) (state (fst first)))
         (refereeEnabled (fst first)) (GCinitialized (fst first))
         (gcPort (fst first)).
Proof.
  apply (reconcile_idempotent (H := example_header) 2
           (example_controller KICKOFF_REGULAR KICKOFFSIDE_ANY)
           (example_packet 7 0 15));
    [exact example_codes_distinct | reflexivity | reflexivity | left; reflexivity].
Defined.

(** C4 at a packet of a match between teams 5 and 5. *)
Lemma unaddressed_packet_ignored_witness :
  handleRefereeMessage (H := example_header) 2
    (example_controller KICKOFF_REGULAR KICKOFFSIDE_ANY) foreign_packet
  = (example_controller KICKOFF_REGULAR KICKOFFSIDE_ANY, IgnoredNotAddressed).
Proof.
  apply (unaddressed_packet_ignored (H := example_header) 2
           (example_controller KICKOFF_REGULAR KICKOFFSIDE_ANY) foreign_packet);
    [reflexivity | discriminate | discriminate].
Defined.

(** C5 at robot 2, penalised for 15 more seconds. *)
Lemma penalty_members_after_lookup_witness :
  let s' :=
    state (fst (handleRefereeMessage (H := example_header) 2
                  (example_controller KICKOFF_REGULAR KICKOFFSIDE_ANY)
                  (example_packet 7 0 15))) in
  0 <= remainingPenalizedTime s'
  /\ (isPenalized s' = true <-> 0 < remainingPenalizedTime s').
Proof.
  destruct (penalty_members_after_lookup (H := example_header) 2
              (example_controller KICKOFF_REGULAR KICKOFFSIDE_ANY)
              (example_packet 7 0 15))
    as (Hnn & Hiff & _);
    [reflexivity | reflexivity | left; reflexivity | simpl; lia |].
  split; [exact Hnn | exact Hiff].
Defined.

(** C8 at robot 0, which is no player of the referee. *)
Lemma invalid_robot_skips_lookup_witness :
  let this := example_controller KICKOFF_REGULAR KICKOFFSIDE_ANY in
  let this' :=
    fst (handleRefereeMessage (H := example_header) 0 this (example_packet 7 0 15)) in
  state this'
  = mkState 2 Magenta 5 1 0 GAME_STARTED false KICKOFF_REGULAR KICKOFFSIDE_ME
      false 0 1
  /\ refereeEnabled this' = true
  /\ GCinitialized this' = true.
Proof.
  destruct (invalid_robot_skips_lookup (H := example_header) 0
              (example_controller KICKOFF_REGULAR KICKOFFSIDE_ANY)
              (example_packet 7 0 15))
    as (teamIndex & Hrec & _ & Hout & _);
    [reflexivity | reflexivity | left; reflexivity |].
  destruct Hout as (_ & _ & Hen & Hinit & Hstate & _); [left; vm_compute; reflexivity |].
  assert (E : teamIndex = 0) by (vm_compute in Hrec; congruence).
  subst teamIndex.
  cbv zeta. split; [exact Hstate |]. split; [exact Hen | exact Hinit].
Defined.

(** C9 at a drop-ball packet. *)
Lemma kickoff_consistent_preserved_witness :
  kickoff_consistent
    (state (fst (handleRefereeMessage (H := example_header) 2
                   (example_controller KICKOFF_REGULAR KICKOFFSIDE_OPPONENT)
                   (example_packet 7 2 0)))).
Proof.
  apply (kickoff_consistent_preserved (H := example_header) 2
           (example_controller KICKOFF_REGULAR KICKOFFSIDE_OPPONENT)
           (example_packet 7 2 0)).
  unfold kickoff_consistent. simpl. discriminate.
Defined.

(** C10 at a packet whose team record has the colour code of magenta. *)
Lemma team_color_from_packet_witness :
  exists teamIndex,
    intended_recipient
      (state (example_controller KICKOFF_REGULAR KICKOFFSIDE_ANY))
      (example_packet 7 0 0) = Some teamIndex
    /\ let colour := teamColour (Data.teams (example_packet 7 0 0) teamIndex) in
       let s' :=
         state (fst (handleRefereeMessage (H := example_header) 2
                       (example_controller KICKOFF_REGULAR KICKOFFSIDE_ANY)
                       (example_packet 7 0 0))) in
       (colour = TEAM_MAGENTA (GameControlHeader := example_header)
        -> teamColor s' = Magenta)
       /\ (colour <> TEAM_MAGENTA (GameControlHeader := example_header)
           -> teamColor s' = Cyan).
Proof.
  apply (team_color_from_packet (H := example_header) 2
           (example_controller KICKOFF_REGULAR KICKOFFSIDE_ANY)
           (example_packet 7 0 0));
    [reflexivity | reflexivity | left; reflexivity].
Defined.

(** C6 fails as stated: four bytes that are not the tag are not a
    datagram of the struct's length, and the iteration ends in the silent
    branch of the tag test, not in the size error. *)
Lemma wrong_length_wrong_tag :
  let input :=
    Datagram 4 (example_buffer [88; 88; 88; 88] (example_packet 7 0 0))
      example_sender in
  4 <> STRUCT_SIZE (GameControlHeader := example_header)
  /\ snd (threadMain_iteration (H := example_header) 2
            (example_controller KICKOFF_REGULAR KICKOFFSIDE_ANY) input)
     = BadHeader
  /\ snd (threadMain_iteration (H := example_header) 2
            (example_controller KICKOFF_REGULAR KICKOFFSIDE_ANY) input)
     <> SizeMismatch.
Proof.
  cbv zeta. split; [discriminate |].
  split; [vm_compute; reflexivity | vm_compute; discriminate].
Qed.

(** C6 at a datagram of 20 bytes that starts with the tag. *)
Lemma malformed_datagram_discarded_witness :
  threadMain_iteration (H := example_header) 2
    (example_controller KICKOFF_REGULAR KICKOFFSIDE_ANY)
    (Datagram 20 (example_buffer [82; 71; 109; 101] (example_packet 7 0 0))
       example_sender)
  = (example_controller KICKOFF_REGULAR KICKOFFSIDE_ANY, [], SizeMismatch).
Proof.
  destruct (malformed_datagram_discarded (H := example_header) 2
              (example_controller KICKOFF_REGULAR KICKOFFSIDE_ANY) 20
              (example_buffer [82; 71; 109; 101] (example_packet 7 0 0))
              example_sender example_tag_ok)
    as (_ & Hsize & _).
  apply Hsize; [lia | reflexivity | discriminate].
Defined.

(** C7 fails as stated: the packet names team 5 twice and the local team
    is team 2, the handler ignores it as not addressed, and the iteration
    still writes the ALIVE packet of team 2, robot 2 to the referee port
    of the sender. *)
Lemma foreign_packet_acknowledged :
  let this := example_controller KICKOFF_REGULAR KICKOFFSIDE_ANY in
  let result :=
    threadMain_iteration (H := example_header) 2 this
      (Datagram 116 (example_buffer [82; 71; 109; 101] foreign_packet)
         example_sender) in
  ~ addressed (state this) foreign_packet
  /\ snd result = Handled IgnoredNotAddressed
  /\ snd (fst result)
     = [ {| status :=
              {| ReturnData.header := [82; 71; 114; 116];
                 ReturnData.version := 1;
                 ReturnData.team := 2;
                 ReturnData.player := 2;
                 ReturnData.message := 0 |};
            destination := {| sin_addr := 3232235777; sin_port := 3838 |} |} ]
  /\ snd (fst result) <> [].
Proof.
  cbv zeta. split.
  - intros [E | E]; discriminate E.
  - split; [vm_compute; reflexivity |].
    split; [vm_compute; reflexivity | vm_compute; discriminate].
Qed.

(** C7 at the datagram of the playing scenario. *)
Lemma acknowledgement_after_every_packet_witness :
  let this := example_controller KICKOFF_REGULAR KICKOFFSIDE_ANY in
  let buffer := example_buffer [82; 71; 109; 101] (example_packet 7 0 0) in
  threadMain_iteration (H := example_header) 2 this
    (Datagram 116 buffer example_sender)
  = (fst (handleRefereeMessage (H := example_header) 2 this (data buffer)),
     [ {| status :=
            {| ReturnData.header := [82; 71; 114; 116];
               ReturnData.version := 1;
               ReturnData.team := 2;
               ReturnData.player := 2;
               ReturnData.message := 0 |};
          destination := {| sin_addr := 3232235777; sin_port := 3838 |} |} ],
     Handled (snd (handleRefereeMessage (H := example_header) 2 this (data buffer)))).
Proof.
  destruct (acknowledgement_after_every_packet (H := example_header) 2
              (example_controller KICKOFF_REGULAR KICKOFFSIDE_ANY)
              (Datagram 116
                 (example_buffer [82; 71; 109; 101] (example_packet 7 0 0))
                 example_sender) example_tag_ok)
    as [Hack _].
  apply (Hack 116 (example_buffer [82; 71; 109; 101] (example_packet 7 0 0))
           example_sender); [reflexivity | lia | reflexivity | reflexivity].
Defined.

(** ** Runs of the handler *)

Section RunFacts.
Context `{GameControlHeader}.

Ltac members :=
  cbn [teamID teamColor opponentID teamScore opponentScore gameState
       isPenaltyShoot kickOffMode kickOffSide isPenalized
       remainingPenalizedTime counter
       set_teamColor set_opponentID set_teamScore set_opponentScore
       set_gameState set_isPenaltyShoot set_kickOff set_isPenalized
       set_remainingPenalizedTime set_counter].

Lemma handle_counter robotID this data :
  counter (state (fst (handleRefereeMessage robotID this data)))
  = counter (state this)
    + match snd (handleRefereeMessage robotID this data) with
      | Applied => 1
      | _ => 0
      end.
Proof.
  unfold handleRefereeMessage.
  repeat split_if; simpl; try lia.
  destruct (intended_recipient (state this) data); simpl; [| lia].
  rewrite apply_packet_members. reflexivity.
Qed.

Lemma handle_enabled robotID this data :
  refereeEnabled (fst (handleRefereeMessage robotID this data))
  = refereeEnabled this && (Data.version data =? STRUCT_VERSION).
Proof.
  unfold handleRefereeMessage.
  destruct (Data.version data =? STRUCT_VERSION); simpl.
  - destruct (refereeEnabled this) eqn:E; simpl; [| assumption].
    destruct (intended_recipient (state this) data); simpl; auto.
  - symmetry. apply andb_false_r.
Qed.

Lemma handle_initialized robotID this data :
  GCinitialized (fst (handleRefereeMessage robotID this data))
  = GCinitialized this
    || match snd (handleRefereeMessage robotID this data) with
       | Applied => true
       | _ => false
       end.
Proof.
  unfold handleRefereeMessage.
  repeat split_if; simpl; try (symmetry; apply orb_false_r).
  destruct (intended_recipient (state this) data); simpl;
    [symmetry; apply orb_true_r | symmetry; apply orb_false_r].
Qed.

Lemma handle_all_cons robotID this data rest :
  handle_all robotID this (data :: rest)
  = handle_all robotID (fst (handleRefereeMessage robotID this data)) rest.
Proof. reflexivity. Qed.

Lemma applied_count_cons robotID this data rest :
  applied_count robotID this (data :: rest)
  = match snd (handleRefereeMessage robotID this data) with
    | Applied => 1
    | _ => 0
    end
    + applied_count robotID (fst (handleRefereeMessage robotID this data)) rest.
Proof.
  cbn [applied_count].
  destruct (handleRefereeMessage robotID this data) as [this' outcome].
  reflexivity.
Qed.

Lemma applied_count_range robotID packets :
  forall this, 0 <= applied_count robotID this packets <= Z.of_nat (length packets).
Proof.
  induction packets as [| data rest IH]; intros this.
  - simpl. lia.
  - rewrite applied_count_cons.
    specialize (IH (fst (handleRefereeMessage robotID this data))).
    cbn [length]. rewrite Nat2Z.inj_succ.
    destruct (snd (handleRefereeMessage robotID this data)); lia.
Qed.

(** X1: over any run of packets the update counter grows by the number
    of packets that were applied, so it never decreases and grows by at
    most one per packet. *)
Theorem counter_counts_applied robotID packets this :
  counter (state (handle_all robotID this packets))
  = counter (state this) + applied_count robotID this packets
  /\ 0 <= applied_count robotID this packets <= Z.of_nat (length packets).
Proof.
  split; [| apply applied_count_range].
  revert this. induction packets as [| data rest IH]; intros this.
  - simpl. lia.
  - rewrite handle_all_cons, applied_count_cons, IH, handle_counter. lia.
Qed.

(** X2: no run of packets changes the team number the controller
    listens for or the port it answers to. *)
Theorem run_keeps_identity robotID packets this :
  teamID (state (handle_all robotID this packets)) = teamID (state this)
  /\ gcPort (handle_all robotID this packets) = gcPort this.
Proof.
  revert this. induction packets as [| data rest IH]; intros this.
  - split; reflexivity.
  - rewrite handle_all_cons.
    destruct (IH (fst (handleRefereeMessage robotID this data))) as [Et Ep].
    destruct (handle_keeps_identity robotID this data) as [Et' Ep'].
    split; congruence.
Qed.

(** X3: after a run the link is enabled exactly if it was enabled before
    and every packet of the run, addressed to the team or not, had the
    supported version; the controller counts as initialized exactly if it
    did before or some packet of the run was applied. *)
Theorem flags_after_run robotID packets this :
  refereeEnabled (handle_all robotID this packets)
  = refereeEnabled this
    && forallb (fun data => Data.version data =? STRUCT_VERSION) packets
  /\ GCinitialized (handle_all robotID this packets)
     = GCinitialized this || (0 <? applied_count robotID this packets).
Proof.
  revert this. induction packets as [| data rest IH]; intros this.
  - simpl. rewrite andb_true_r, orb_false_r. split; reflexivity.
  - rewrite handle_all_cons, applied_count_cons.
    destruct (IH (fst (handleRefereeMessage robotID this data))) as [Een Einit].
    rewrite Een, Einit, handle_enabled, handle_initialized.
    cbn [forallb]. split; [symmetry; apply andb_assoc |].
    pose proof (applied_count_range robotID rest
                  (fst (handleRefereeMessage robotID this data))) as Hrange.
    rewrite <- orb_assoc. f_equal.
    destruct (snd (handleRefereeMessage robotID this data)); cbn [orb];
      try reflexivity.
    symmetry. apply Z.ltb_lt. lia.
Qed.

(** *** What an applied packet stores *)

Lemma intended_recipient_first s data :
  teamNumber (Data.teams data 0) = teamID s -> intended_recipient s data = Some 0.
Proof.
  intros E. unfold intended_recipient. rewrite E, Z.eqb_refl. reflexivity.
Qed.

Lemma intended_recipient_second s data :
  teamNumber (Data.teams data 0) <> teamID s ->
  teamNumber (Data.teams data 1) = teamID s ->
  intended_recipient s data = Some 1.
Proof.
  intros N E. unfold intended_recipient.
  destruct (Z.eqb_spec (teamNumber (Data.teams data 0)) (teamID s));
    [contradiction |].
  rewrite E, Z.eqb_refl. reflexivity.
Qed.

Lemma handle_applied_at robotID this data teamIndex :
  Data.version data = STRUCT_VERSION ->
  refereeEnabled this = true ->
  intended_recipient (state this) data = Some teamIndex ->
  handleRefereeMessage robotID this data
  = (mkController (apply_packet robotID teamIndex data (state this))
       true true (gcPort this), Applied).
Proof.
  intros Hv Hen Hrec. unfold handleRefereeMessage.
  rewrite Hv, Z.eqb_refl, Hen, Hrec. reflexivity.
Qed.

(** X4: an applied packet makes the stored scores and opponent mirror
    the packet.  The first team record is the own one whenever it carries
    the local team number, also when the second record carries it too;
    otherwise the second record is the own one. *)
Theorem scores_mirror_packet robotID this data :
  Data.version data = STRUCT_VERSION ->
  refereeEnabled this = true ->
  addressed (state this) data ->
  let s' := state (fst (handleRefereeMessage robotID this data)) in
  let own := if teamNumber (Data.teams data 0) =? teamID (state this)
             then 0 else 1 in
  teamNumber (Data.teams data own) = teamID (state this)
  /\ teamScore s' = score (Data.teams data own)
  /\ opponentScore s' = score (Data.teams data (1 - own))
  /\ opponentID s' = teamNumber (Data.teams data (1 - own)).
Proof.
  intros Hv Hen Haddr. cbv zeta.
  destruct (Z.eqb_spec (teamNumber (Data.teams data 0)) (teamID (state this)))
    as [E0 | N0].
  - rewrite (handle_applied_at robotID this data 0 Hv Hen
               (intended_recipient_first _ _ E0)).
    simpl fst. cbn [state]. rewrite apply_packet_members. members. auto.
  - assert (E1 : teamNumber (Data.teams data 1) = teamID (state this))
      by (destruct Haddr; [contradiction | assumption]).
    rewrite (handle_applied_at robotID this data 1 Hv Hen
               (intended_recipient_second _ _ N0 E1)).
    simpl fst. cbn [state]. rewrite apply_packet_members. members. auto.
Qed.

(** X5: with pairwise different state codes an applied packet maps the
    game state Initial and Finished to Stopped, Ready to Ready, Set to
    Set and Playing to Started and keeps the stored phase for any other
    code; the secondary state Normal clears the shoot-out flag,
    PenaltyShoot sets it and any other code keeps it. *)
Theorem phase_from_packet robotID this data :
  codes_distinct ->
  Data.version data = STRUCT_VERSION ->
  refereeEnabled this = true ->
  addressed (state this) data ->
  let s' := state (fst (handleRefereeMessage robotID this data)) in
  gameState s'
  = (if Data.state data =? STATE_INITIAL then GAME_STOPPED
     else if Data.state data =? STATE_READY then GAME_READY
     else if Data.state data =? STATE_SET then GAME_SET
     else if Data.state data =? STATE_PLAYING then GAME_STARTED
     else if Data.state data =? STATE_FINISHED then GAME_STOPPED
     else gameState (state this))
  /\ isPenaltyShoot s'
     = (if Data.secGameState data =? STATE2_NORMAL then false
        else if Data.secGameState data =? STATE2_PENALTYSHOOT then true
        else isPenaltyShoot (state this)).
Proof.
  intros Hok Hv Hen Haddr.
  destruct (handle_applied robotID this data Hv Hen Haddr)
    as (teamIndex & _ & _ & Hrun).
  cbv zeta. rewrite Hrun. simpl fst. cbn [state].
  rewrite apply_packet_members. members.
  split; [apply adjust_gameState_result | apply adjust_penaltyShoot_result];
    assumption.
Qed.

Lemma kickoff_steps_own teamIndex data s :
  teamIndex = 0 \/ teamIndex = 1 ->
  Data.kickOffTeam data = teamIndex ->
  let s' := adjust_kickoff teamIndex data (handle_dropball data s) in
  kickOffSide s' = KICKOFFSIDE_ME
  /\ (kickoff_consistent s -> kickOffMode s' = KICKOFF_REGULAR).
Proof.
  intros Hti Hk. unfold adjust_kickoff, kickoff_mismatch, handle_dropball.
  rewrite Hk. unfold kickoff_consistent.
  destruct s as [? ? ? ? ? ? ? mode side ? ? ?]. cbv zeta. members.
  destruct Hti; subst teamIndex; destruct mode, side; cbn;
    (split; [reflexivity | intros Hinv; try reflexivity;
                           discriminate (Hinv eq_refl)]).
Qed.

Lemma kickoff_steps_other teamIndex data s :
  teamIndex = 0 \/ teamIndex = 1 ->
  Data.kickOffTeam data = 1 - teamIndex ->
  let s' := adjust_kickoff teamIndex data (handle_dropball data s) in
  kickOffSide s' = KICKOFFSIDE_OPPONENT
  /\ (kickoff_consistent s -> kickOffMode s' = KICKOFF_REGULAR).
Proof.
  intros Hti Hk. unfold adjust_kickoff, kickoff_mismatch, handle_dropball.
  rewrite Hk. unfold kickoff_consistent.
  destruct s as [? ? ? ? ? ? ? mode side ? ? ?]. cbv zeta. members.
  destruct Hti; subst teamIndex; destruct mode, side; cbn;
    (split; [reflexivity | intros Hinv; try reflexivity;
                           discriminate (Hinv eq_refl)]).
Qed.

Lemma kickoff_steps_unknown teamIndex data s :
  teamIndex = 0 \/ teamIndex = 1 ->
  Data.kickOffTeam data <> 0 ->
  Data.kickOffTeam data <> 1 ->
  Data.kickOffTeam data <> 2 ->
  adjust_kickoff teamIndex data (handle_dropball data s) = s.
Proof.
  intros Hti N0 N1 N2. unfold adjust_kickoff, kickoff_mismatch, handle_dropball.
  destruct (Z.eqb_spec (Data.kickOffTeam data) 2); [contradiction |]. cbn [andb].
  destruct (Z.eqb_spec (Data.kickOffTeam data) teamIndex);
    [destruct Hti; subst teamIndex; contradiction |].
  destruct (Z.eqb_spec (Data.kickOffTeam data) (1 - teamIndex));
    [destruct Hti; subst teamIndex; contradiction |].
  reflexivity.
Qed.

(** X6: an applied packet whose kick-off code is the index of the own
    team record stores the kick off for the own side, one whose code is
    the index of the other record stores it for the opponent; the mode is
    then Regular, provided drop-ball mode went with side Either before.  A
    code other than 0, 1 and 2 leaves both kick-off members as stored. *)
Theorem kickoff_follows_referee robotID this data :
  Data.version data = STRUCT_VERSION ->
  refereeEnabled this = true ->
  addressed (state this) data ->
  exists teamIndex,
    intended_recipient (state this) data = Some teamIndex
    /\ let s' := state (fst (handleRefereeMessage robotID this data)) in
       (Data.kickOffTeam data = teamIndex ->
          kickOffSide s' = KICKOFFSIDE_ME
          /\ (kickoff_consistent (state this) -> kickOffMode s' = KICKOFF_REGULAR))
       /\ (Data.kickOffTeam data = 1 - teamIndex ->
             kickOffSide s' = KICKOFFSIDE_OPPONENT
             /\ (kickoff_consistent (state this)
                 -> kickOffMode s' = KICKOFF_REGULAR))
       /\ (Data.kickOffTeam data <> 0 -> Data.kickOffTeam data <> 1 ->
           Data.kickOffTeam data <> 2 ->
             kickOffMode s' = kickOffMode (state this)
             /\ kickOffSide s' = kickOffSide (state this)).
Proof.
  intros Hv Hen Haddr.
  destruct (handle_applied robotID this data Hv Hen Haddr)
    as (teamIndex & Hti & Hrec & Hrun).
  exists teamIndex. split; [assumption |].
  cbv zeta. rewrite Hrun. simpl fst. cbn [state].
  rewrite apply_packet_members. members.
  split; [| split].
  - intros Hk. apply (kickoff_steps_own teamIndex data (state this) Hti Hk).
  - intros Hk. apply (kickoff_steps_other teamIndex data (state this) Hti Hk).
  - intros N0 N1 N2.
    rewrite (kickoff_steps_unknown teamIndex data (state this) Hti N0 N1 N2).
    auto.
Qed.

(** *** The state as a function of the last packet *)

Lemma kickoff_steps_determined teamIndex data s1 s2 :
  teamIndex = 0 \/ teamIndex = 1 ->
  Data.kickOffTeam data = 0 \/ Data.kickOffTeam data = 1
  \/ Data.kickOffTeam data = 2 ->
  kickoff_consistent s1 -> kickoff_consistent s2 ->
  kickOffMode (adjust_kickoff teamIndex data (handle_dropball data s1))
  = kickOffMode (adjust_kickoff teamIndex data (handle_dropball data s2))
  /\ kickOffSide (adjust_kickoff teamIndex data (handle_dropball data s1))
     = kickOffSide (adjust_kickoff teamIndex data (handle_dropball data s2)).
Proof.
  intros Hti Hk Hinv1 Hinv2.
  destruct Hk as [Hk | [Hk | Hk]].
  - destruct Hti as [Hti | Hti].
    + assert (Hown : Data.kickOffTeam data = teamIndex) by congruence.
      destruct (kickoff_steps_own teamIndex data s1 (or_introl Hti) Hown) as [A B].
      destruct (kickoff_steps_own teamIndex data s2 (or_introl Hti) Hown) as [C D].
      cbv zeta in *. rewrite A, C, (B Hinv1), (D Hinv2). auto.
    + assert (Hoth : Data.kickOffTeam data = 1 - teamIndex) by lia.
      destruct (kickoff_steps_other teamIndex data s1 (or_intror Hti) Hoth) as [A B].
      destruct (kickoff_steps_other teamIndex data s2 (or_intror Hti) Hoth) as [C D].
      cbv zeta in *. rewrite A, C, (B Hinv1), (D Hinv2). auto.
  - destruct Hti as [Hti | Hti].
    + assert (Hoth : Data.kickOffTeam data = 1 - teamIndex) by lia.
      destruct (kickoff_steps_other teamIndex data s1 (or_introl Hti) Hoth) as [A B].
      destruct (kickoff_steps_other teamIndex data s2 (or_introl Hti) Hoth) as [C D].
      cbv zeta in *. rewrite A, C, (B Hinv1), (D Hinv2). auto.
    + assert (Hown : Data.kickOffTeam data = teamIndex) by congruence.
      destruct (kickoff_steps_own teamIndex data s1 (or_intror Hti) Hown) as [A B].
      destruct (kickoff_steps_own teamIndex data s2 (or_intror Hti) Hown) as [C D].
      cbv zeta in *. rewrite A, C, (B Hinv1), (D Hinv2). auto.
  - destruct (kickoff_dropball_result teamIndex data s1 Hti Hk) as [A B].
    destruct (kickoff_dropball_result teamIndex data s2 Hti Hk) as [C D].
    rewrite A, B, C, D. split; [reflexivity |].
    unfold kickoff_consistent in *.
    destruct (KickOffMode_eqb (kickOffMode s1) KICKOFF_DROPBALL) eqn:E1;
      destruct (KickOffMode_eqb (kickOffMode s2) KICKOFF_DROPBALL) eqn:E2;
      try apply KickOffMode_eqb_eq in E1; try apply KickOffMode_eqb_eq in E2;
      try rewrite (Hinv1 E1); try rewrite (Hinv2 E2); reflexivity.
Qed.

(** X7: the state after an applied packet is a function of the packet
    and the team number, apart from the counter: two controllers of the
    same team in which drop-ball mode goes with side Either end in the
    same state when they apply the same packet, provided the packet
    carries one of the five game-state codes, one of the two secondary
    codes and a kick-off code 0, 1 or 2, and the robot is one of the
    players.  Nothing of the state before the packet survives. *)
Theorem state_determined_by_packet robotID this1 this2 data :
  codes_distinct ->
  Data.version data = STRUCT_VERSION ->
  refereeEnabled this1 = true -> refereeEnabled this2 = true ->
  teamID (state this1) = teamID (state this2) ->
  addressed (state this1) data ->
  kickoff_consistent (state this1) -> kickoff_consistent (state this2) ->
  In (Data.state data)
     [STATE_INITIAL; STATE_READY; STATE_SET; STATE_PLAYING; STATE_FINISHED] ->
  In (Data.secGameState data) [STATE2_NORMAL; STATE2_PENALTYSHOOT] ->
  In (Data.kickOffTeam data) [0; 1; 2] ->
  1 <= robotID <= MAX_NUM_PLAYERS ->
  set_counter 0 (state (fst (handleRefereeMessage robotID this1 data)))
  = set_counter 0 (state (fst (handleRefereeMessage robotID this2 data))).
Proof.
  intros Hok Hv Hen1 Hen2 Hteam Haddr Hinv1 Hinv2 Hst Hsec Hk Hid.
  destruct (handle_applied robotID this1 data Hv Hen1 Haddr)
    as (teamIndex & Hti & Hrec & Hrun1).
  assert (Hrec2 : intended_recipient (state this2) data = Some teamIndex)
    by (rewrite <- Hrec; symmetry; apply intended_recipient_reads; assumption).
  rewrite Hrun1, (handle_applied_at robotID this2 data teamIndex Hv Hen2 Hrec2).
  simpl fst. cbn [state]. rewrite !apply_packet_members.
  assert (Hlook : getGCRobotID robotID <> -1)
    by (rewrite getGCRobotID_valid by assumption; lia).
  destruct (handle_penalties_lookup robotID teamIndex data (state this1) Hlook)
    as [Et1 Ep1].
  destruct (handle_penalties_lookup robotID teamIndex data (state this2) Hlook)
    as [Et2 Ep2].
  assert (Hk' : Data.kickOffTeam data = 0 \/ Data.kickOffTeam data = 1
                \/ Data.kickOffTeam data = 2)
    by (simpl in Hk; intuition congruence).
  destruct (kickoff_steps_determined teamIndex data _ _ Hti Hk' Hinv1 Hinv2)
    as [Em Es].
  apply state_ext; members; try reflexivity;
    try assumption; try congruence.
  - rewrite !(adjust_gameState_result _ _ Hok).
    simpl in Hst.
    repeat match goal with
           | |- context [Z.eqb ?a ?b] => destruct (Z.eqb_spec a b)
           end; try reflexivity.
    exfalso. intuition congruence.
  - rewrite !(adjust_penaltyShoot_result _ _ Hok).
    simpl in Hsec.
    repeat match goal with
           | |- context [Z.eqb ?a ?b] => destruct (Z.eqb_spec a b)
           end; try reflexivity.
    exfalso. intuition congruence.
Qed.

(** X8: the mapping of robot identifiers to player indices answers -1
    exactly for the identifiers outside [1, MAX_NUM_PLAYERS]; every other
    answer is an index of the player array, and no two identifiers share
    one. *)
Theorem getGCRobotID_index robotID :
  (getGCRobotID robotID = -1 <-> robotID < 1 \/ MAX_NUM_PLAYERS < robotID)
  /\ (getGCRobotID robotID <> -1 ->
      0 <= getGCRobotID robotID < MAX_NUM_PLAYERS
      /\ forall other, getGCRobotID other = getGCRobotID robotID -> other = robotID).
Proof.
  split.
  - split; [| apply getGCRobotID_invalid].
    intros E.
    destruct (Z_lt_dec robotID 1); [auto |].
    destruct (Z_lt_dec MAX_NUM_PLAYERS robotID); [auto |].
    rewrite getGCRobotID_valid in E by lia. lia.
  - intros Hid. split; [apply getGCRobotID_range; assumption |].
    intros other E.
    assert (Hother : getGCRobotID other <> -1) by congruence.
    revert E Hid Hother. unfold getGCRobotID.
    repeat split_if; intros; try congruence; lia.
Qed.

(** *** Packets that do not concern the team *)

Lemma handle_foreign robotID this data :
  concerns (teamID (state this)) data = false ->
  fst (handleRefereeMessage robotID this data) = this.
Proof.
  unfold concerns, names_team. intros Hno.
  apply orb_false_elim in Hno. destruct Hno as [Hv Hno].
  apply negb_false_iff in Hv.
  apply orb_false_elim in Hno. destruct Hno as [N0 N1].
  unfold handleRefereeMessage, intended_recipient.
  rewrite Hv, N0, N1. simpl.
  destruct (refereeEnabled this); reflexivity.
Qed.

(** X9: packets of the supported version that name another pair of
    teams are transparent: leaving them out of a run changes nothing in
    the controller the run ends in. *)
Theorem foreign_packets_transparent robotID packets this :
  handle_all robotID this (filter (concerns (teamID (state this))) packets)
  = handle_all robotID this packets.
Proof.
  revert this. induction packets as [| data rest IH]; intros this;
    [reflexivity |].
  cbn [filter].
  destruct (concerns (teamID (state this)) data) eqn:E.
  - rewrite !handle_all_cons.
    rewrite <- (proj1 (handle_keeps_identity robotID this data)).
    apply IH.
  - rewrite handle_all_cons, (handle_foreign robotID this data E). apply IH.
Qed.

(** *** A stream of identical packets *)

Lemma apply_packet_counter robotID teamIndex data v s :
  apply_packet robotID teamIndex data (set_counter v s)
  = set_counter (v + 1) (apply_packet robotID teamIndex data s).
Proof.
  rewrite !apply_packet_members.
  apply state_ext; members; try reflexivity.
  - apply adjust_gameState_reads. reflexivity.
  - apply adjust_penaltyShoot_reads. reflexivity.
  - apply kickoff_steps_reads; reflexivity.
  - apply kickoff_steps_reads; reflexivity.
  - apply handle_penalties_reads; reflexivity.
  - apply handle_penalties_reads; reflexivity.
Qed.

Lemma set_counter_twice v w s : set_counter v (set_counter w s) = set_counter v s.
Proof. reflexivity. Qed.

Lemma handle_all_repeat robotID teamIndex data port s (n : nat) :
  codes_distinct ->
  Data.version data = STRUCT_VERSION ->
  let s1 := apply_packet robotID teamIndex data s in
  intended_recipient s1 data = Some teamIndex ->
  forall k,
    handle_all robotID (mkController (set_counter k s1) true true port)
      (repeat data n)
    = mkController (set_counter (k + Z.of_nat n) s1) true true port.
Proof.
  intros Hok Hv s1 Hrec.
  induction n as [| n IH]; intros k.
  - simpl. rewrite Z.add_0_r. reflexivity.
  - cbn [repeat]. rewrite handle_all_cons.
    rewrite (handle_applied_at robotID
               (mkController (set_counter k s1) true true port) data teamIndex
               Hv eq_refl).
    + simpl fst. cbn [state gcPort]. rewrite apply_packet_counter.
      pose proof (apply_packet_twice robotID teamIndex data s Hok) as Htwice.
      cbv zeta in Htwice. fold s1 in Htwice. rewrite Htwice.
      rewrite set_counter_twice. rewrite IH. f_equal. f_equal. lia.
    + cbn [state]. rewrite <- Hrec. apply intended_recipient_reads. reflexivity.
Qed.

(** X10: a stream of copies of one applied packet only advances the
    counter: after the packet and [n] further copies the controller is
    the one after the first copy with the counter [n] higher. *)
Theorem repeated_packet_only_counts robotID this data (n : nat) :
  codes_distinct ->
  Data.version data = STRUCT_VERSION ->
  refereeEnabled this = true ->
  addressed (state this) data ->
  let first := fst (handleRefereeMessage robotID this data) in
  handle_all robotID this (repeat data (S n))
  = mkController (set_counter (counter (state first) + Z.of_nat n) (state first))
      (refereeEnabled first) (GCinitialized first) (gcPort first).
Proof.
  intros Hok Hv Hen Haddr.
  destruct (handle_applied robotID this data Hv Hen Haddr)
    as (teamIndex & Hti & Hrec & Hrun).
  cbv zeta. cbn [repeat]. rewrite handle_all_cons, Hrun. simpl fst.
  cbn [state refereeEnabled GCinitialized gcPort].
  assert (Hrec' : intended_recipient
                    (apply_packet robotID teamIndex data (state this)) data
                  = Some teamIndex).
  { rewrite <- Hrec. apply intended_recipient_reads.
    rewrite apply_packet_members. reflexivity. }
  pose proof (handle_all_repeat robotID teamIndex data (gcPort this) (state this)
                n Hok Hv Hrec'
                (counter (apply_packet robotID teamIndex data (state this))))
    as Hrep.
  cbv zeta in Hrep. rewrite <- Hrep. f_equal. f_equal.
  destruct (apply_packet robotID teamIndex data (state this)); reflexivity.
Qed.

End RunFacts.

(** ** Runs of the receive loop *)

Lemma strncpy_length (n : nat) : forall src, length (strncpy src n) = n.
Proof.
  induction n as [| n IH]; intros src; [reflexivity |].
  cbn [strncpy]. destruct src as [| ch rest].
  - cbn [length]. rewrite IH. reflexivity.
  - destruct (ch =? 0); cbn [length]; rewrite IH; reflexivity.
Qed.

(** What [strncpy] wrote compares equal to its source under [strncmp]
    over the same number of characters, whatever follows it. *)
Lemma strncmp_strncpy (n : nat) :
  forall src rest, strncmp (strncpy src n ++ rest) src n = 0.
Proof.
  induction n as [| n IH]; intros src rest; [reflexivity |].
  cbn [strncpy]. destruct src as [| ch tail].
  - cbn [app strncmp hd]. rewrite !Z.eqb_refl. reflexivity.
  - destruct (Z.eqb_spec ch 0) as [E | N].
    + subst ch. cbn [app strncmp hd]. rewrite !Z.eqb_refl. reflexivity.
    + cbn [app strncmp hd tl]. rewrite Z.eqb_refl.
      destruct (Z.eqb_spec ch 0); [contradiction |]. apply IH.
Qed.

Lemma strncpy_tag (tag : list Z) :
  length tag = 4%nat ->
  Forall (fun ch => 0 < ch < 256) tag ->
  strncpy tag 4 = tag.
Proof.
  intros Hlen Hch.
  destruct tag as [| h1 [| h2 [| h3 [| h4 [| ? ?]]]]]; try discriminate.
  repeat match goal with
         | F : Forall _ (_ :: _) |- _ =>
             let P := fresh "P" in
             apply Forall_cons_iff in F; destruct F as [P F]
         end.
  cbn [strncpy].
  repeat match goal with
         | |- context [Z.eqb ?x 0] => destruct (Z.eqb_spec x 0); [lia |]
         end.
  reflexivity.
Qed.

Section LoopFacts.
Context `{GameControlHeader}.

Lemma iteration_handled robotID this input :
  reaches_handler input = true ->
  exists received buffer remoteAddress,
    input = Datagram received buffer remoteAddress
    /\ threadMain_iteration robotID this input
       = (fst (handleRefereeMessage robotID this (data buffer)),
          [acknowledgement robotID this input],
          Handled (snd (handleRefereeMessage robotID this (data buffer)))).
Proof.
  destruct input as [| received buffer remoteAddress]; [discriminate |].
  cbn [reaches_handler]. intros Hpass.
  apply andb_true_iff in Hpass. destruct Hpass as [Hpass Hsize].
  apply andb_true_iff in Hpass. destruct Hpass as [Hrecv Htag].
  apply negb_true_iff in Hrecv.
  exists received, buffer, remoteAddress. split; [reflexivity |].
  cbn [threadMain_iteration]. rewrite Hrecv, Htag, Hsize. cbn [negb].
  destruct (handle_keeps_identity robotID this (data buffer)) as [Eteam Eport].
  destruct (handleRefereeMessage robotID this (data buffer)) as [this' outcome].
  cbn [fst snd] in *. unfold acknowledgement, alive_status.
  rewrite Eteam, Eport. reflexivity.
Qed.

Lemma iteration_skipped robotID this input :
  reaches_handler input = false ->
  fst (threadMain_iteration robotID this input) = (this, []).
Proof.
  destruct input as [| received buffer remoteAddress]; [reflexivity |].
  cbn [reaches_handler threadMain_iteration]. intros Hfail.
  destruct (received <=? 0); [reflexivity |].
  destruct (strncmp (bytes buffer) STRUCT_HEADER 4 =? 0); [| reflexivity].
  destruct (received =? STRUCT_SIZE); [discriminate | reflexivity].
Qed.

Lemma acknowledgement_identity robotID this this' input :
  teamID (state this') = teamID (state this) ->
  gcPort this' = gcPort this ->
  acknowledgement robotID this' input = acknowledgement robotID this input.
Proof.
  intros Et Ep. unfold acknowledgement, alive_status. rewrite Et, Ep. reflexivity.
Qed.

Lemma threadMain_run_cons robotID this input rest :
  threadMain_run robotID this (input :: rest)
  = (fst (threadMain_run robotID
            (fst (fst (threadMain_iteration robotID this input))) rest),
     snd (fst (threadMain_iteration robotID this input))
     ++ snd (threadMain_run robotID
               (fst (fst (threadMain_iteration robotID this input))) rest)).
Proof.
  cbn [threadMain_run].
  destruct (threadMain_iteration robotID this input) as [[this' writes] outcome].
  cbn [fst snd].
  destruct (threadMain_run robotID this' rest) as [final later]. reflexivity.
Qed.

Lemma threadMain_run_spec robotID inputs :
  forall this,
    threadMain_run robotID this inputs
    = (handle_all robotID this (flat_map packet_of (filter reaches_handler inputs)),
       map (acknowledgement robotID this) (filter reaches_handler inputs)).
Proof.
  induction inputs as [| input rest IH]; intros this; [reflexivity |].
  rewrite threadMain_run_cons. cbn [filter].
  destruct (reaches_handler input) eqn:Hpass.
  - destruct (iteration_handled robotID this input Hpass)
      as (received & buffer & remoteAddress & Hin & Hrun).
    rewrite Hrun. cbn [fst snd]. rewrite IH. cbn [fst snd].
    subst input. cbn [flat_map packet_of map app].
    destruct (handle_keeps_identity robotID this (data buffer)) as [Eteam Eport].
    f_equal. f_equal.
    apply map_ext. intros input.
    apply acknowledgement_identity; assumption.
  - rewrite (iteration_skipped robotID this input Hpass). cbn [fst snd].
    rewrite IH. reflexivity.
Qed.

(** X11: over a run of the receive loop the controller ends where the
    handler ends on the packets of the deliveries that pass the three
    tests (bytes received, magic tag, struct size), in their order, and
    the loop writes one return packet per such delivery, in the same
    order: ALIVE from the team and robot, to the sender's address at the
    referee port.  Deliveries failing a test leave no trace. *)
Theorem loop_run_is_handler_run robotID inputs this :
  threadMain_run robotID this inputs
  = (handle_all robotID this (flat_map packet_of (filter reaches_handler inputs)),
     map (acknowledgement robotID this) (filter reaches_handler inputs))
  /\ forall input,
       status (acknowledgement robotID this input)
       = {| ReturnData.header := strncpy GAMECONTROLLER_RETURN_STRUCT_HEADER 4;
            ReturnData.version := GAMECONTROLLER_RETURN_STRUCT_VERSION;
            ReturnData.team := teamID (state this);
            ReturnData.player := robotID;
            ReturnData.message := GAMECONTROLLER_RETURN_MSG_ALIVE |}
       /\ destination (acknowledgement robotID this input)
          = {| sin_addr := sin_addr (sender input); sin_port := gcPort this |}.
Proof.
  split; [apply threadMain_run_spec |].
  intros input. split; reflexivity.
Qed.

(** X12: once a datagram of another version reached the handler, the
    loop goes on acknowledging every later datagram that passes the
    tests, while the state it reports on stays frozen and the link stays
    disabled to the end of the run. *)
Theorem acknowledges_while_disabled robotID this received buffer remoteAddress rest :
  reaches_handler (Datagram received buffer remoteAddress) = true ->
  Data.version (data buffer) <> STRUCT_VERSION ->
  let run :=
    threadMain_run robotID this (Datagram received buffer remoteAddress :: rest) in
  fst run = mkController (state this) false (GCinitialized this) (gcPort this)
  /\ length (snd run) = S (length (filter reaches_handler rest))
  /\ Forall (fun w => status w = alive_status this robotID) (snd run).
Proof.
  intros Hpass Hv. cbv zeta. rewrite threadMain_run_spec.
  cbn [filter]. rewrite Hpass. cbn [flat_map packet_of app fst snd map length].
  split; [| split].
  - rewrite handle_all_cons.
    assert (Hstep : fst (handleRefereeMessage robotID this (data buffer))
                    = mkController (state this) false (GCinitialized this)
                        (gcPort this)).
    { unfold handleRefereeMessage.
      destruct (Z.eqb_spec (Data.version (data buffer)) STRUCT_VERSION);
        [contradiction | reflexivity]. }
    rewrite Hstep. apply handle_all_disabled. reflexivity.
  - rewrite length_map. reflexivity.
  - constructor; [reflexivity |].
    apply Forall_forall. intros w Hw.
    apply in_map_iff in Hw. destruct Hw as (input & <- & _). reflexivity.
Qed.

(** X13: the header of the return packet is always four characters and
    passes the tag test a reader makes with [strncmp] against the return
    tag, whatever follows it in the reader's buffer; it is the return tag
    itself when the tag is four characters none of which is NUL. *)
Theorem return_header_round_trip this robotID (rest : list Z) :
  let header := ReturnData.header (alive_status this robotID) in
  length header = 4%nat
  /\ strncmp (header ++ rest) GAMECONTROLLER_RETURN_STRUCT_HEADER 4 = 0
  /\ (length GAMECONTROLLER_RETURN_STRUCT_HEADER = 4%nat ->
      Forall (fun ch => 0 < ch < 256) GAMECONTROLLER_RETURN_STRUCT_HEADER ->
      header = GAMECONTROLLER_RETURN_STRUCT_HEADER).
Proof.
  cbv zeta. cbn [alive_status ReturnData.header].
  split; [apply strncpy_length |].
  split; [apply strncmp_strncpy | apply strncpy_tag].
Qed.

End LoopFacts.

(** ** Start-up of the controller *)

(** X14: [init] takes the team number from the configuration; the team
    color is Magenta for the configured string "magenta" exactly, Cyan for
    every other string that is not empty, and is left as it was for the
    empty string.  The listener is started only if referee.enabled is not
    0 and the transport is allocated and opens, yet the enabled flag of
    the controller follows referee.enabled alone and stays set when the
    transport fails. *)
Theorem init_outcome (cfg : Config) (allocated opened : bool) (r : Referee) :
  let r' := init cfg allocated opened r in
  teamID (state (controller r')) = game_team_id cfg
  /\ teamColor (state (controller r'))
     = (if String.eqb (game_team_color cfg) ""
        then teamColor (state (controller r))
        else if String.eqb (game_team_color cfg) "magenta" then Magenta else Cyan)
  /\ refereeEnabled (controller r') = negb (referee_enabled cfg =? 0)
  /\ listening r'
     = listening r || (negb (referee_enabled cfg =? 0) && allocated && opened).
Proof.
  cbv zeta. unfold init. rewrite (Z.eqb_sym 0 (referee_enabled cfg)).
  destruct (referee_enabled cfg =? 0), allocated, opened,
    (String.eqb (game_team_color cfg) ""); cbn;
    repeat split; try reflexivity;
    try (symmetry; apply orb_false_r); try (symmetry; apply orb_true_r).
Qed.

(** X15: a send request is answered by one broadcast with the robot
    identifier and the referee port of the controller; after [init] that
    port is the configured referee.port if referee.enabled is not 0, even
    when the transport could not be opened, and is the value the
    controller held before [init] if referee.enabled is 0.  A message
    without a send request, or with a false one, is answered by no
    broadcast; the callback reports the message as processed in every
    case. *)
Theorem send_request_after_init (cfg : Config) (allocated opened : bool)
    (r : Referee) (robotID : Z) (message : GCInfo) :
  let this' := controller (init cfg allocated opened r) in
  messageCallback robotID this' message
  = (match sendrequest message with
     | Some true =>
         [ {| robotid := robotID;
              robotgamecontrollerport :=
                if referee_enabled cfg =? 0
                then gcPort (controller r) else referee_port cfg |} ]
     | _ => []
     end, true).
Proof.
  cbv zeta. unfold messageCallback, init.
  rewrite (Z.eqb_sym 0 (referee_enabled cfg)).
  destruct (sendrequest message) as [[|] |];
    destruct (referee_enabled cfg =? 0), allocated, opened; reflexivity.
Qed.

(** ** The GameCtrl object *)

Lemma last_cons {A : Type} (x d : A) (l : list A) : last (x :: l) d = last l x.
Proof.
  revert x d. induction l as [| y l IH]; intros x d; [reflexivity |].
  change (last (x :: y :: l) d) with (last (y :: l) d).
  rewrite (IH y d), (IH y x). reflexivity.
Qed.

Lemma last_map_in {A B : Type} (f : A -> B) (d : B) (l : list A) :
  l <> [] -> exists x, In x l /\ last (map f l) d = f x.
Proof.
  induction l as [| x l IH]; [congruence |]. intros _.
  destruct l as [| y l].
  - exists x. split; [left; reflexivity | reflexivity].
  - destruct IH as (z & Hin & E); [discriminate |].
    exists z. split; [right; assumption |].
    change (map f (x :: y :: l)) with (f x :: map f (y :: l)).
    change (last (f x :: map f (y :: l)) d) with (last (map f (y :: l)) d).
    exact E.
Qed.

Lemma consumed_incl (reads : list (Z * Buffer)) (x : Z * Buffer) :
  In x (consumed reads) -> In x reads.
Proof.
  induction reads as [| [size buffer] rest IH]; [auto |].
  cbn [consumed]. destruct (0 <? size); [| contradiction].
  intros [E | Hin]; [left; assumption | right; apply IH; assumption].
Qed.

Section GameCtrlFacts.
Context `{GameControlHeader}.

Lemma receive_spec ownTeam reads :
  forall copy flag,
    receive ownTeam copy flag reads
    = (last (map (fun r => data (snd r))
               (filter (fun r => accepted ownTeam (fst r) (snd r))
                  (consumed reads))) copy,
       flag || existsb (fun r => accepted ownTeam (fst r) (snd r))
                 (consumed reads)).
Proof.
  induction reads as [| [size buffer] rest IH]; intros copy flag.
  - cbn. rewrite orb_false_r. reflexivity.
  - cbn [receive consumed]. destruct (0 <? size).
    + cbn [filter existsb fst snd].
      destruct (accepted ownTeam size buffer).
      * rewrite IH. cbn [map fst snd]. rewrite last_cons.
        rewrite orb_true_r. reflexivity.
      * rewrite IH. reflexivity.
    + cbn. rewrite orb_false_r. reflexivity.
Qed.

Lemma accepted_facts ownTeam size buffer :
  accepted ownTeam size buffer = true ->
  size = STRUCT_SIZE
  /\ firstn 4 (bytes buffer) = firstn 4 STRUCT_HEADER
  /\ Data.version (data buffer) = STRUCT_VERSION
  /\ ownTeam <> 0
  /\ names_team ownTeam (data buffer) = true.
Proof.
  unfold accepted, memcmp4_eq, names_team. intros Hacc.
  repeat (apply andb_true_iff in Hacc; destruct Hacc as [Hacc ?]).
  destruct (list_eq_dec Z.eq_dec (firstn 4 (bytes buffer)) (firstn 4 STRUCT_HEADER));
    [| discriminate].
  repeat split; try assumption.
  - apply Z.eqb_eq. assumption.
  - apply Z.eqb_eq. assumption.
  - intros E. subst ownTeam. discriminate.
Qed.

Lemma set_gameCtrlData_same g : set_gameCtrlData (Ctrl.gameCtrlData g) g = g.
Proof. destruct g; reflexivity. Qed.

(** X16: a call of [receive] looks at the reads up to the first one that
    returns no bytes; it reports a packet exactly if one of them is
    accepted, and the local copy is then the packet of the last accepted
    one; without an accepted one, or without a socket, the object is as
    before. *)
Theorem receive_keeps_last_accepted (g : Ctrl.GameCtrl) (reads : list (Z * Buffer)) :
  let taken :=
    filter (fun r => accepted (Ctrl.teamNumber g) (fst r) (snd r))
      (consumed reads) in
  GameCtrl_receive g reads
  = if Ctrl.udp g
    then (set_gameCtrlData
            (last (map (fun r => data (snd r)) taken) (Ctrl.gameCtrlData g)) g,
          negb (Nat.eqb (length taken) 0))
    else (g, false).
Proof.
  cbv zeta. unfold GameCtrl_receive.
  destruct (Ctrl.udp g); [| reflexivity].
  rewrite receive_spec. cbn [orb]. f_equal.
  induction (consumed reads) as [| r rest IH]; [reflexivity |].
  cbn [existsb filter].
  destruct (accepted (Ctrl.teamNumber g) (fst r) (snd r)); [reflexivity |].
  exact IH.
Qed.

Lemma receive_unknown_team (g : Ctrl.GameCtrl) (reads : list (Z * Buffer)) :
  Ctrl.teamNumber g = 0 \/ Ctrl.udp g = false ->
  GameCtrl_receive g reads = (g, false).
Proof.
  intros Hg. unfold GameCtrl_receive.
  destruct (Ctrl.udp g) eqn:Hudp; [| reflexivity].
  destruct Hg as [Hteam | Hno]; [| discriminate].
  rewrite receive_spec, Hteam.
  assert (Hnone : forall l : list (Z * Buffer),
             filter (fun r => accepted 0 (fst r) (snd r)) l = []
             /\ existsb (fun r => accepted 0 (fst r) (snd r)) l = false).
  { intros l. induction l as [| r l [IHf IHe]]; [split; reflexivity |].
    cbn [filter existsb].
    assert (Hrej : accepted 0 (fst r) (snd r) = false).
    { unfold accepted. cbn [Z.eqb negb]. rewrite andb_false_r. reflexivity. }
    rewrite Hrej. split; assumption. }
  destruct (Hnone (consumed reads)) as [Ef Ee].
  rewrite Ef, Ee. cbn. rewrite set_gameCtrlData_same. reflexivity.
Qed.

(** X17: a freshly constructed object holds the zeroed packet and team
    number 0, and however many datagrams arrive, also well-formed ones
    naming team 0, [receive] reports none and leaves the object as
    constructed; packets are accepted only once a team number other than
    0 is set. *)
Theorem fresh_object_accepts_nothing (garbage : Ctrl.GameCtrl) (setup : UdpSetup)
    (reads : list (Z * Buffer)) :
  let g := GameCtrl_new garbage setup in
  Ctrl.teamNumber g = 0
  /\ Ctrl.gameCtrlData g = zero_data
  /\ GameCtrl_receive g reads = (g, false).
Proof.
  cbv zeta. split; [reflexivity |]. split; [reflexivity |].
  apply receive_unknown_team. left. reflexivity.
Qed.

Lemma receive_team (g : Ctrl.GameCtrl) (reads : list (Z * Buffer)) :
  Ctrl.teamNumber (fst (GameCtrl_receive g reads)) = Ctrl.teamNumber g
  /\ Ctrl.udp (fst (GameCtrl_receive g reads)) = Ctrl.udp g.
Proof.
  unfold GameCtrl_receive. destruct (Ctrl.udp g) eqn:E; [| auto].
  destruct (receive (Ctrl.teamNumber g) (Ctrl.gameCtrlData g) false reads).
  cbn. auto.
Qed.

Lemma receive_true (g : Ctrl.GameCtrl) (reads : list (Z * Buffer)) :
  snd (GameCtrl_receive g reads) = true ->
  exists size buffer,
    In (size, buffer) reads
    /\ accepted (Ctrl.teamNumber g) size buffer = true
    /\ Ctrl.gameCtrlData (fst (GameCtrl_receive g reads)) = data buffer.
Proof.
  unfold GameCtrl_receive. destruct (Ctrl.udp g); [| discriminate].
  rewrite receive_spec. cbn [fst snd orb]. intros Hsome.
  apply existsb_exists in Hsome. destruct Hsome as (r & Hin & Hacc).
  assert (Hne : filter (fun r => accepted (Ctrl.teamNumber g) (fst r) (snd r))
                  (consumed reads) <> []).
  { intros Hnil.
    assert (Hr : In r (filter (fun r => accepted (Ctrl.teamNumber g) (fst r) (snd r))
                         (consumed reads)))
      by (apply filter_In; auto).
    rewrite Hnil in Hr. contradiction. }
  destruct (last_map_in (fun r => data (snd r)) (Ctrl.gameCtrlData g) _ Hne)
    as ([size buffer] & Hlast & Elast).
  apply filter_In in Hlast. destruct Hlast as [Hcons Hacc'].
  exists size, buffer. split; [apply consumed_incl, Hcons |].
  split; [exact Hacc' |].
  cbn [Ctrl.gameCtrlData set_gameCtrlData]. exact Elast.
Qed.

Lemma main_loop_prints (polls : list (list (Z * Buffer))) :
  forall g,
    Forall (fun printed =>
              exists reads size buffer,
                In reads polls /\ In (size, buffer) reads
                /\ accepted (Ctrl.teamNumber g) size buffer = true
                /\ printed = Data.state (data buffer))
      (main_loop g polls)
    /\ (length (main_loop g polls) <= length polls)%nat
    /\ (Ctrl.udp g = false -> main_loop g polls = []).
Proof.
  induction polls as [| reads rest IH]; intros g.
  - cbn. split; [constructor | split; [apply le_n | reflexivity]].
  - cbn [main_loop].
    destruct (receive_team g reads) as [Eteam Eudp].
    pose proof (receive_true g reads) as Htrue.
    destruct (GameCtrl_receive g reads) as [g' received] eqn:Erecv.
    cbn [fst snd] in *.
    destruct (IH g') as (Hall & Hlen & Hnone).
    rewrite Eteam in Hall.
    assert (Hrest : Forall (fun printed =>
                       exists reads0 size buffer,
                         In reads0 (reads :: rest) /\ In (size, buffer) reads0
                         /\ accepted (Ctrl.teamNumber g) size buffer = true
                         /\ printed = Data.state (data buffer))
                      (main_loop g' rest)).
    { eapply Forall_impl; [| exact Hall].
      intros printed (reads0 & size & buffer & Hin & Hrest).
      exists reads0, size, buffer. split; [right; assumption | assumption]. }
    destruct received.
    + destruct (Htrue eq_refl) as (size & buffer & Hin & Hacc & Ecopy).
      split; [| split].
      * constructor; [| exact Hrest].
        exists reads, size, buffer.
        split; [left; reflexivity |]. split; [assumption |].
        split; [assumption |]. rewrite Ecopy. reflexivity.
      * cbn [length]. apply le_n_S. exact Hlen.
      * intros Hudp. exfalso.
        unfold GameCtrl_receive in Erecv. rewrite Hudp in Erecv. discriminate.
    + split; [exact Hrest |]. split.
      * cbn [length]. apply le_S. exact Hlen.
      * intros Hudp. apply Hnone. congruence.
Qed.

(** X18: every line [main] prints is the game state of a datagram that
    was read in that run and accepted for team 2, so it has the size of
    the struct, the magic tag and the supported version and names team 2
    in one of its team records; there is at most one line per call of
    [receive], and none at all if one of the configuration calls on the
    socket failed. *)
Theorem main_prints_accepted_states (garbage : Ctrl.GameCtrl) (setup : UdpSetup)
    (polls : list (list (Z * Buffer))) :
  Forall (fun printed =>
            exists reads size buffer,
              In reads polls /\ In (size, buffer) reads
              /\ printed = Data.state (data buffer)
              /\ size = STRUCT_SIZE
              /\ firstn 4 (bytes buffer) = firstn 4 STRUCT_HEADER
              /\ Data.version (data buffer) = STRUCT_VERSION
              /\ names_team 2 (data buffer) = true)
    (GameCtrl_main garbage setup polls)
  /\ (length (GameCtrl_main garbage setup polls) <= length polls)%nat
  /\ (setBlocking setup && setBroadcast setup && bind setup
      && setTarget setup && setLoopback setup = false ->
      GameCtrl_main garbage setup polls = []).
Proof.
  unfold GameCtrl_main.
  destruct (main_loop_prints polls (set_teamNumber 2 (GameCtrl_new garbage setup)))
    as (Hall & Hlen & Hnone).
  split; [| split].
  - eapply Forall_impl; [| exact Hall].
    intros printed (reads & size & buffer & Hin & Hin' & Hacc & Eprinted).
    cbn [set_teamNumber Ctrl.teamNumber] in Hacc.
    destruct (accepted_facts 2 size buffer Hacc) as (Es & Et & Ev & _ & En).
    exists reads, size, buffer. repeat split; assumption.
  - exact Hlen.
  - intros Hfail. apply Hnone.
    cbn [set_teamNumber GameCtrl_new Ctrl.udp].
    destruct (setBlocking setup), (setBroadcast setup), (bind setup),
      (setTarget setup), (setLoopback setup); try reflexivity; discriminate.
Qed.

End GameCtrlFacts.

(** ** The two receivers side by side *)

Section Receivers.
Context `{GameControlHeader}.

Lemma memcmp4_tag (buffer : Buffer) :
  tag_ok -> memcmp4_eq (bytes buffer) STRUCT_HEADER = true <-> has_magic buffer.
Proof.
  intros Hok. unfold memcmp4_eq, has_magic.
  rewrite (firstn_all2 (n := 4) STRUCT_HEADER)
    by (rewrite (header_length Hok); apply le_n).
  destruct (list_eq_dec Z.eq_dec (firstn 4 (bytes buffer)) STRUCT_HEADER);
    split; intros; congruence.
Qed.

Lemma names_team_addressed (s : RefereeState) (data : RoboCupGameControlData) :
  names_team (teamID s) data = true <-> addressed s data.
Proof.
  unfold names_team, addressed. rewrite orb_true_iff, !Z.eqb_eq. reflexivity.
Qed.

(** X19: suppose the header of [GameCtrl] defines the tag, the version
    and the struct size the header of the referee controller defines, and
    both programs read the same struct from the buffer.  Then, for an
    enabled controller with a team number other than 0 and a tag of four
    characters none of which is NUL, the two receivers agree: the loop of
    the referee controller ends in an applied packet on exactly the
    datagrams that [GameCtrl::receive] accepts for the same team number. *)
Theorem receivers_agree robotID this received buffer remoteAddress
    (tag : list Z) (version size : Z) (view : Buffer -> RoboCupGameControlData) :
  tag = STRUCT_HEADER ->
  version = STRUCT_VERSION ->
  size = STRUCT_SIZE ->
  view buffer = data buffer ->
  tag_ok ->
  refereeEnabled this = true ->
  teamID (state this) <> 0 ->
  0 < received ->
  accepted_by tag version size view (teamID (state this)) received buffer = true
  <-> snd (threadMain_iteration robotID this
             (Datagram received buffer remoteAddress))
      = Handled Applied.
Proof.
  intros -> -> -> Hview Hok Hen Hteam Hrecv.
  cbn [threadMain_iteration].
  destruct (Z.leb_spec received 0); [lia |].
  unfold accepted_by. rewrite Hview.
  destruct (Z.eqb_spec (teamID (state this)) 0); [contradiction |].
  cbn [negb]. rewrite andb_true_r.
  split.
  - intros Hacc.
    apply andb_true_iff in Hacc. destruct Hacc as [Hacc Hname].
    apply andb_true_iff in Hacc. destruct Hacc as [Hacc Hv].
    apply andb_true_iff in Hacc. destruct Hacc as [Hsize Htag].
    apply (memcmp4_tag buffer Hok) in Htag.
    apply (header_test buffer Hok) in Htag.
    rewrite Htag, Hsize. cbn [negb].
    assert (Happ : snd (handleRefereeMessage robotID this (data buffer)) = Applied).
    { apply applied_iff. split; [apply Z.eqb_eq; assumption |].
      split; [assumption |]. apply names_team_addressed.
      unfold names_team. exact Hname. }
    destruct (handleRefereeMessage robotID this (data buffer)) as [this' outcome].
    cbn [snd] in *. subst outcome. reflexivity.
  - intros Hout.
    destruct (strncmp (bytes buffer) STRUCT_HEADER 4 =? 0) eqn:Htag;
      [| discriminate].
    destruct (received =? STRUCT_SIZE) eqn:Hsize; cbn [negb] in Hout;
      [| discriminate].
    assert (Happ : snd (handleRefereeMessage robotID this (data buffer)) = Applied).
    { destruct (handleRefereeMessage robotID this (data buffer)) as [this' outcome].
      cbn [snd] in *. congruence. }
    apply applied_iff in Happ. destruct Happ as (Hv & _ & Haddr).
    apply (header_test buffer Hok) in Htag.
    apply (memcmp4_tag buffer Hok) in Htag.
    apply names_team_addressed in Haddr. unfold names_team in Haddr.
    rewrite Htag, Haddr. apply Z.eqb_eq in Hv. rewrite Hv. reflexivity.
Qed.

Lemma memory_loop_length (values : list ALValue) :
  forall copy, length (memory_loop copy values) = length values.
Proof.
  induction values as [| value rest IH]; intros copy; [reflexivity |].
  cbn [memory_loop length]. rewrite IH. reflexivity.
Qed.

(** X20: the ALMemory client prints one line per pass; the line is the
    game state of the value just read if that value is binary and has the
    size of the struct, and repeats the line before otherwise (the state
    of the copy the loop started with, in the first pass). *)
Theorem memory_loop_prints (copy : RoboCupGameControlData)
    (values : list ALValue) (value : ALValue) :
  length (memory_loop copy values) = length values
  /\ memory_loop copy (values ++ [value])
     = memory_loop copy values
       ++ [ if isBinary value && (getSize value =? STRUCT_SIZE)
            then Data.state (content value)
            else last (memory_loop copy values) (Data.state copy) ].
Proof.
  split; [apply memory_loop_length |].
  revert copy. induction values as [| first rest IH]; intros copy.
  - cbn [app memory_loop last].
    destruct (isBinary value && (getSize value =? STRUCT_SIZE)); reflexivity.
  - cbn [app memory_loop]. rewrite IH. cbn [app]. rewrite last_cons.
    reflexivity.
Qed.

End Receivers.

(** ** The further theorems at concrete packets *)

(** X4 at the packet of the playing scenario. *)
Lemma scores_mirror_packet_witness :
  let s' :=
    state (fst (handleRefereeMessage (H := example_header) 2
                  (example_controller KICKOFF_REGULAR KICKOFFSIDE_ANY)
                  (example_packet 7 0 0))) in
  teamScore s' = 1 /\ opponentScore s' = 0 /\ opponentID s' = 5.
Proof.
  destruct (scores_mirror_packet (H := example_header) 2
              (example_controller KICKOFF_REGULAR KICKOFFSIDE_ANY)
              (example_packet 7 0 0))
    as (_ & Hown & Hopp & Hid);
    [reflexivity | reflexivity | left; reflexivity |].
  cbv zeta. split; [exact Hown |]. split; [exact Hopp | exact Hid].
Defined.

(** X5 at the packet of the playing scenario. *)
Lemma phase_from_packet_witness :
  let s' :=
    state (fst (handleRefereeMessage (H := example_header) 2
                  (example_controller_late) (example_packet 7 0 0))) in
  gameState s' = GAME_STARTED /\ isPenaltyShoot s' = false.
Proof.
  destruct (phase_from_packet (H := example_header) 2
              example_controller_late (example_packet 7 0 0))
    as [Hphase Hshoot];
    [exact example_codes_distinct | reflexivity | reflexivity
     | left; reflexivity |].
  cbv zeta. split; [exact Hphase | exact Hshoot].
Defined.

(** X6 at a packet that gives the kick off to the own team, for a
    controller in drop-ball mode. *)
Lemma kickoff_follows_referee_witness :
  exists teamIndex,
    intended_recipient (state example_controller_late) (example_packet 7 0 0)
    = Some teamIndex
    /\ let s' :=
         state (fst (handleRefereeMessage (H := example_header) 2
                       example_controller_late (example_packet 7 0 0))) in
       kickOffSide s' = KICKOFFSIDE_ME /\ kickOffMode s' = KICKOFF_REGULAR.
Proof.
  destruct (kickoff_follows_referee (H := example_header) 2
              example_controller_late (example_packet 7 0 0))
    as (teamIndex & Hrec & Hown & _);
    [reflexivity | reflexivity | left; reflexivity |].
  exists teamIndex. split; [exact Hrec |].
  assert (E : teamIndex = 0) by (vm_compute in Hrec; congruence).
  destruct (Hown (eq_sym E)) as [Hside Hmode].
  cbv zeta. split; [exact Hside |].
  apply Hmode. intros _. reflexivity.
Defined.

(** X7 at a controller at the start and one late in a match. *)
Lemma state_determined_by_packet_witness :
  set_counter 0
    (state (fst (handleRefereeMessage (H := example_header) 2
                   (example_controller KICKOFF_REGULAR KICKOFFSIDE_OPPONENT)
                   (example_packet 7 0 15))))
  = set_counter 0
      (state (fst (handleRefereeMessage (H := example_header) 2
                     example_controller_late (example_packet 7 0 15)))).
Proof.
  apply (state_determined_by_packet (H := example_header) 2
           (example_controller KICKOFF_REGULAR KICKOFFSIDE_OPPONENT)
           example_controller_late (example_packet 7 0 15)).
  - exact example_codes_distinct.
  - reflexivity.
  - reflexivity.
  - reflexivity.
  - reflexivity.
  - left. reflexivity.
  - intros E. discriminate E.
  - intros _. reflexivity.
  - simpl. auto.
  - simpl. auto.
  - simpl. auto.
  - simpl. lia.
Defined.

(** X8 at robot 2. *)
Lemma getGCRobotID_index_witness :
  0 <= getGCRobotID (H := example_header) 2 < 11
  /\ forall other,
       getGCRobotID (H := example_header) other
       = getGCRobotID (H := example_header) 2 -> other = 2.
Proof.
  destruct (getGCRobotID_index (H := example_header) 2) as [_ Hvalid].
  apply Hvalid. vm_compute. discriminate.
Defined.

(** X10 at three further copies of the packet of the playing scenario. *)
Lemma repeated_packet_only_counts_witness :
  handle_all (H := example_header) 2
    (example_controller KICKOFF_REGULAR KICKOFFSIDE_ANY)
    (repeat (example_packet 7 0 15) 4)
  = {| state := mkState 2 Magenta 5 1 0 GAME_STARTED false
                  KICKOFF_REGULAR KICKOFFSIDE_ME true 15 4;
       refereeEnabled := true; GCinitialized := true; gcPort := 3838 |}.
Proof.
  apply (repeated_packet_only_counts (H := example_header) 2
           (example_controller KICKOFF_REGULAR KICKOFFSIDE_ANY)
           (example_packet 7 0 15) 3);
    [exact example_codes_distinct | reflexivity | reflexivity | left; reflexivity].
Defined.

(** X12 at a datagram of version 6 followed by one of version 7. *)
Lemma acknowledges_while_disabled_witness :
  let run :=
    threadMain_run (H := example_header) 2
      (example_controller KICKOFF_REGULAR KICKOFFSIDE_ANY)
      [ Datagram 116 (example_buffer [82; 71; 109; 101] (example_packet 6 0 0))
          example_sender;
        Datagram 116 (example_buffer [82; 71; 109; 101] (example_packet 7 0 15))
          example_sender ] in
  state (fst run) = state (example_controller KICKOFF_REGULAR KICKOFFSIDE_ANY)
  /\ refereeEnabled (fst run) = false
  /\ length (snd run) = 2%nat.
Proof.
  destruct (acknowledges_while_disabled (H := example_header) 2
              (example_controller KICKOFF_REGULAR KICKOFFSIDE_ANY) 116
              (example_buffer [82; 71; 109; 101] (example_packet 6 0 0))
              example_sender
              [ Datagram 116
                  (example_buffer [82; 71; 109; 101] (example_packet 7 0 15))
                  example_sender ])
    as (Hfinal & Hlen & _); [vm_compute; reflexivity | discriminate |].
  cbv zeta. rewrite Hfinal, Hlen.
  split; [reflexivity |]. split; [reflexivity | vm_compute; reflexivity].
Defined.

(** X13 at the return tag "RGrt". *)
Lemma return_header_round_trip_witness :
  ReturnData.header
    (alive_status (H := example_header)
       (example_controller KICKOFF_REGULAR KICKOFFSIDE_ANY) 2)
  = [82; 71; 114; 116].
Proof.
  destruct (return_header_round_trip (H := example_header)
              (example_controller KICKOFF_REGULAR KICKOFFSIDE_ANY) 2 [])
    as (_ & _ & Htag).
  apply Htag; [reflexivity |].
  repeat (constructor; [lia |]). constructor.
Defined.

(** X18 at a socket whose [bind] fails. *)
Lemma main_prints_accepted_states_witness :
  GameCtrl_main (H := example_header) example_garbage example_setup_failing
    [ [ (116, example_buffer [82; 71; 109; 101] (example_packet 7 0 0)) ] ]
  = [].
Proof.
  destruct (main_prints_accepted_states (H := example_header) example_garbage
              example_setup_failing
              [ [ (116, example_buffer [82; 71; 109; 101] (example_packet 7 0 0)) ] ])
    as (_ & _ & Hnone).
  apply Hnone. reflexivity.
Defined.

(** X19 at the datagram of the playing scenario, with the tag "RGme",
    version 7 and 116 bytes on both sides. *)
Lemma receivers_agree_witness :
  accepted_by [82; 71; 109; 101] 7 116 data 2 116
    (example_buffer [82; 71; 109; 101] (example_packet 7 0 0)) = true
  <-> snd (threadMain_iteration (H := example_header) 2
             (example_controller KICKOFF_REGULAR KICKOFFSIDE_ANY)
             (Datagram 116
                (example_buffer [82; 71; 109; 101] (example_packet 7 0 0))
                example_sender))
      = Handled Applied.
Proof.
  apply (receivers_agree (H := example_header) 2
           (example_controller KICKOFF_REGULAR KICKOFFSIDE_ANY) 116
           (example_buffer [82; 71; 109; 101] (example_packet 7 0 0))
           example_sender [82; 71; 109; 101] 7 116 data);
    [reflexivity | reflexivity | reflexivity | reflexivity
     | exact example_tag_ok | reflexivity | discriminate | lia].
Defined.

(** Identifiers beyond 16 bits reach [getGCRobotID] wrapped around. *)
Example int16_t_wraps :
  int16_t 65538 = 2 /\ int16_t 40000 = -25536 /\ int16_t (-1) = -1.
Proof. repeat split. Qed.
